(** * play-with-docker: instance lifecycle and terminal registry

    A shallow embedding of [pwd/instance.go].  The package-level registry
    [terms], the [net.Conn] objects it refers to and the calls made to the
    collaborators (container engine, storage, event bus, metrics, logger)
    are threaded through an explicit [World]; every Go function becomes a
    computation in the monad [M] over that world.  A run-time panic is an
    outcome of its own, and so is running out of fuel in the one unbounded
    loop of the file. *)

From stdpp Require Import base gmap strings pretty list.
From Stdlib Require Import ZArith Lia Ascii.

Open Scope string_scope.

(** ** Go runtime and standard library *)

Module Go.

(** An [error] value is identified with the message [err.Error()]
    returns; [nil] is [None] in an [option error]. *)
Definition error : Type := string.

Definition bytes : Type := list Byte.byte.

(** [int] is a 64-bit two's complement integer. *)
Definition int_wrap (z : Z) : Z := ((z + 2 ^ 63) `mod` 2 ^ 64 - 2 ^ 63)%Z.

(** [i++] *)
Definition int_incr (i : Z) : Z := int_wrap (i + 1).

Definition newline : string := String (Ascii.ascii_of_nat 10) "".

(** The slice expression [s[:n]] of a string: defined when
    [n <= len(s)], a run-time panic otherwise. *)
Definition slice_to (s : string) (n : nat) : option string :=
  if decide (n ≤ String.length s)%nat then Some (String.substring 0 n s)
  else None.

(** [strings.Contains(s, substr)] *)
Fixpoint Contains (s substr : string) : bool :=
  String.prefix substr s ||
  match s with
  | EmptyString => false
  | String _ s' => Contains s' substr
  end.

(** [strings.Split(s, sep)] for a separator of one byte: the pieces of
    [s] between the occurrences of [sep], one more than there are
    occurrences. *)
Fixpoint Split (s : string) (sep : Ascii.ascii) : list string :=
  match s with
  | EmptyString => [""]
  | String c s' =>
      if Ascii.eqb c sep then "" :: Split s' sep
      else match Split s' sep with
           | [] => [String c ""]
           | piece :: pieces => String c piece :: pieces
           end
  end.

(** White space as [strings.TrimSpace] sees it among the one-byte
    characters: tab, line feed, vertical tab, form feed, carriage return
    and space.  (Go also trims the multi-byte Unicode spaces; bytes above
    127 are never trimmed here.) *)
Definition isSpace (c : Ascii.ascii) : bool :=
  let n := Ascii.nat_of_ascii c in
  (((9 <=? n) && (n <=? 13)) || (n =? 32))%nat.

Fixpoint TrimLeftSpace (s : string) : string :=
  match s with
  | EmptyString => ""
  | String c s' => if isSpace c then TrimLeftSpace s' else s
  end.

Fixpoint TrimRightSpace (s : string) : string :=
  match s with
  | EmptyString => ""
  | String c s' =>
      match TrimRightSpace s' with
      | EmptyString => if isSpace c then "" else String c ""
      | t => String c t
      end
  end.

(** [strings.TrimSpace(s)] *)
Definition TrimSpace (s : string) : string :=
  TrimRightSpace (TrimLeftSpace s).

(** [filepath.IsAbs(path)] on Unix *)
Definition IsAbs (path : string) : bool := String.prefix "/" path.

End Go.

(** ** The packages the file imports *)

Module net.

(** A [net.Conn] is an object; the value kept in a variable or a map is
    a reference to it. *)
Definition Conn : Type := nat.

(** What the model tracks of a connection object: whether [Close] was
    called, the payloads its [Write] accepted, and the chunks a reader
    still gets from it before the end of the stream. *)
Record ConnState : Type := {
  closed : bool;
  received : list string;
  pending : list string
}.

Definition fresh : ConnState :=
  {| closed := false; received := []; pending := [] |}.

End net.

Module event.

Inductive EventType : Type :=
| INSTANCE_NEW
| INSTANCE_DELETE
| INSTANCE_TERMINAL_OUT.

End event.

Module types.

(** [types.Instance], with the fields this file reads or writes.  The
    back-pointer [Session *Session] is only ever read for its [Id]
    (in [InstanceAttachTerminal]); the field [Session_Id] stands for
    [instance.Session.Id]. *)
Record Instance : Type := {
  Image : string;
  Name : string;
  Hostname : string;
  IP : string;
  SessionId : string;
  Alias : string;
  ServerCert : Go.bytes;
  ServerKey : Go.bytes;
  CACert : Go.bytes;
  Cert : Go.bytes;
  Key : Go.bytes;
  Session_Id : string;
  IsDockerHost : bool
}.

(** [types.Session].  A nil [Instances] map and an empty one are not
    told apart: they differ only on insertion, which [InstanceNew]
    guards with [make]. *)
Record Session : Type := {
  Id : string;
  PwdIpAddress : string;
  Instances : gmap string Instance
}.

End types.

Module docker.

Record CreateContainerOpts : Type := {
  Image : string;
  SessionId : string;
  PwdIpAddress : string;
  ContainerName : string;
  Hostname : string;
  ServerCert : Go.bytes;
  ServerKey : Go.bytes;
  CACert : Go.bytes;
  Privileged : bool;
  HostFQDN : string
}.

(** The container engine as this file uses it.  An implementation is
    given by the answers of its methods; no operation of the file calls
    the same method twice, so an answer is a function of the arguments.
    [ExecAttach] also yields what the command wrote to the [out]
    writer. *)
Record DockerApi : Type := {
  CreateContainer : CreateContainerOpts → string * option Go.error;
  DeleteContainer : string → option Go.error;
  CreateAttachConnection : string → net.Conn + Go.error;
  ExecAttach : string → list string → string * Z * option Go.error;
  CopyToContainer : string → string → string → string → option Go.error
}.

End docker.

Module storage.

Record StorageApi : Type := {
  InstanceCreate : string → types.Instance → option Go.error;
  InstanceDelete : string → string → option Go.error
}.

End storage.

Module http.

(** An [*http.Response], with the fields this file reads. *)
Record Response : Type := {
  StatusCode : Z;
  Body : string
}.

(** What the file does with the HTTP client: the GET of a URL, and the
    [Close] of the body of the response that GET gave. *)
Inductive Call : Type :=
| Get (url : string)
| BodyClose (url : string).

End http.

(** ** The world *)

(** A call that leaves the file: to the logger, the metrics, the session
    mutex, the event bus, the container engine or the storage, and the
    start of a goroutine. *)
Inductive Call : Type :=
| Log (line : string)
| ObserveAction (action : string)
| SetGauges
| Lock (sessionId : string)
| Unlock (sessionId : string)
| Emit (kind : event.EventType) (sessionId : string) (args : list string)
| DockerCreateContainer (opts : docker.CreateContainerOpts)
| DockerDeleteContainer (name : string)
| DockerCreateAttachConnection (name : string)
| DockerExecAttach (name : string) (cmd : list string)
| DockerCopyToContainer (name dest fileName content : string)
| StorageInstanceCreate (sessionId : string) (instance : types.Instance)
| StorageInstanceDelete (sessionId name : string)
| GoInstanceAttachTerminal (instance : types.Instance).

(** [terms] is the package-level [map[string]map[string]net.Conn];
    [conns] holds the connection objects; [trace] lists the calls made so
    far, oldest first. *)
Record World : Type := {
  terms : gmap string (gmap string net.Conn);
  conns : gmap net.Conn net.ConnState;
  trace : list Call
}.

Definition set_terms (t : gmap string (gmap string net.Conn)) (w : World) : World :=
  {| terms := t; conns := conns w; trace := trace w |}.

Definition set_conns (c : gmap net.Conn net.ConnState) (w : World) : World :=
  {| terms := terms w; conns := c; trace := trace w |}.

Definition record (c : Call) (w : World) : World :=
  {| terms := terms w; conns := conns w; trace := trace w ++ [c] |}.

Definition record_all (cs : list Call) (w : World) : World :=
  {| terms := terms w; conns := conns w; trace := trace w ++ cs |}.

Definition conn_state (w : World) (c : net.Conn) : net.ConnState :=
  default net.fresh (conns w !! c).

(** ** Computations *)

Inductive outcome (A : Type) : Type :=
| Return (a : A)
| Panic (msg : string)
| OutOfFuel.

Arguments Return {A} a.
Arguments Panic {A} msg.
Arguments OutOfFuel {A}.

Definition M (A : Type) : Type := World → outcome A * World.

#[global] Instance M_ret : MRet M := λ A a w, (Return a, w).

#[global] Instance M_bind : MBind M := λ A B f m w,
  match m w with
  | (Return a, w') => f a w'
  | (Panic msg, w') => (Panic msg, w')
  | (OutOfFuel, w') => (OutOfFuel, w')
  end.

Definition lift {A : Type} (o : outcome A) : M A := λ w, (o, w).

Definition gets {A : Type} (f : World → A) : M A := λ w, (Return (f w), w).

Definition modify (f : World → World) : M unit := λ w, (Return tt, f w).

Definition call (c : Call) : M unit := modify (record c).

(** [defer d] before a body: [d] runs when the body is left, whether it
    returned or panicked. *)
Definition defer {A : Type} (d : M unit) (body : M A) : M A := λ w,
  let '(r, w1) := body w in (r, (d w1).2).

(** Indexing [l[i]]: a run-time panic when out of range. *)
Definition index {A : Type} (l : list A) (i : nat) : outcome A :=
  match l !! i with
  | Some x => Return x
  | None => Panic "index out of range"
  end.

Definition slice_to (s : string) (n : nat) : outcome string :=
  match Go.slice_to s n with
  | Some s' => Return s'
  | None => Panic "slice bounds out of range"
  end.


(** ** Package pwd *)

(** The receiver [p *pwd]: the collaborators it holds.  The event bus has
    no answer to give ([Emit] returns nothing), so it has no field; its
    calls are found in the trace. *)
Record pwd : Type := {
  docker_api : docker.DockerApi;
  storage_api : storage.StorageApi
}.

(** [sessionWriter]; its [event] field is the event bus of [p]. *)
Record sessionWriter : Type := {
  sessionId : string;
  instanceName : string
}.

Record InstanceConfig : Type := {
  ImageName : string;
  Alias : string;
  Hostname : string;
  ServerCert : Go.bytes;
  ServerKey : Go.bytes;
  CACert : Go.bytes;
  Cert : Go.bytes;
  Key : Go.bytes;
  Host : string
}.

(** *** Calls to the collaborators: recorded, then answered *)

Definition docker_CreateContainer (p : pwd) (opts : docker.CreateContainerOpts)
  : M (string * option Go.error) :=
  call (DockerCreateContainer opts);;
  mret (docker.CreateContainer (docker_api p) opts).

Definition docker_DeleteContainer (p : pwd) (name : string) : M (option Go.error) :=
  call (DockerDeleteContainer name);;
  mret (docker.DeleteContainer (docker_api p) name).

Definition docker_CreateAttachConnection (p : pwd) (name : string)
  : M (net.Conn + Go.error) :=
  call (DockerCreateAttachConnection name);;
  mret (docker.CreateAttachConnection (docker_api p) name).

Definition docker_ExecAttach (p : pwd) (name : string) (cmd : list string)
  : M (string * Z * option Go.error) :=
  call (DockerExecAttach name cmd);;
  mret (docker.ExecAttach (docker_api p) name cmd).

Definition docker_CopyToContainer (p : pwd) (name dest fileName content : string)
  : M (option Go.error) :=
  call (DockerCopyToContainer name dest fileName content);;
  mret (docker.CopyToContainer (docker_api p) name dest fileName content).

Definition storage_InstanceCreate (p : pwd) (sid : string) (i : types.Instance)
  : M (option Go.error) :=
  call (StorageInstanceCreate sid i);;
  mret (storage.InstanceCreate (storage_api p) sid i).

Definition storage_InstanceDelete (p : pwd) (sid name : string) : M (option Go.error) :=
  call (StorageInstanceDelete sid name);;
  mret (storage.InstanceDelete (storage_api p) sid name).

Definition event_Emit (kind : event.EventType) (sid : string) (args : list string)
  : M unit :=
  call (Emit kind sid args).

(** [observeAction(action, time.Now())]: the latency of [action] is
    reported to the metrics; the time itself is not modelled. *)
Definition observeAction (action : string) : M unit := call (ObserveAction action).

Definition setGauges : M unit := call SetGauges.

Definition log_Println (line : string) : M unit := call (Log line).

(** *** Methods of a connection *)

(** [conn.Close()] *)
Definition conn_Close (c : net.Conn) : M unit :=
  modify (λ w,
    let s := conn_state w c in
    set_conns (<[c := {| net.closed := true;
                         net.received := net.received s;
                         net.pending := net.pending s |}]> (conns w)) w).

(** [conn.Write(data)]: a closed connection refuses the payload. *)
Definition conn_Write (c : net.Conn) (data : string) : M (option Go.error) := λ w,
  let s := conn_state w c in
  if net.closed s then (Return (Some "use of closed network connection"), w)
  else (Return None,
        set_conns (<[c := {| net.closed := false;
                             net.received := net.received s ++ [data];
                             net.pending := net.pending s |}]> (conns w)) w).

(** Reading a connection until the end of its stream, as [io.Copy] does:
    a closed connection gives nothing. *)
Definition conn_ReadAll (c : net.Conn) : M (list string) := λ w,
  let s := conn_state w c in
  if net.closed s then (Return [], w)
  else (Return (net.pending s),
        set_conns (<[c := {| net.closed := false;
                             net.received := net.received s;
                             net.pending := [] |}]> (conns w)) w).

(** *** The registry *)

(** [terms[sessionId][instanceName]]; [None] is the nil connection. *)
Definition getInstanceTermConn (sessionId instanceName : string) (w : World)
  : option net.Conn :=
  terms w !! sessionId ≫= λ m, m !! instanceName.

(** The two branches of lines 65-69: a fresh inner map, or an update of
    the one that is there. *)
Definition register (sessionId instanceName : string) (conn : net.Conn) : M unit :=
  modify (λ w,
    match terms w !! sessionId with
    | None => set_terms (<[sessionId := {[instanceName := conn]}]> (terms w)) w
    | Some m => set_terms (<[sessionId := <[instanceName := conn]> m]> (terms w)) w
    end).

(** [sessionWriter.Write] *)
Definition sessionWriter_Write (s : sessionWriter) (p : string)
  : M (nat * option Go.error) :=
  event_Emit event.INSTANCE_TERMINAL_OUT (sessionId s) [instanceName s; p];;
  mret (String.length p, None).

Fixpoint write_all (write : string → M (nat * option Go.error)) (ps : list string)
  : M unit :=
  match ps with
  | [] => mret tt
  | p :: ps' => write p;; write_all write ps'
  end.

(** The loops at lines 239-244 and 194-199, with their [break]. *)
Fixpoint privileged_loop (image : string) (allowed : list string) (privileged : bool)
  : bool :=
  match allowed with
  | [] => privileged
  | imageName :: rest =>
      if String.eqb image imageName then true
      else privileged_loop image rest privileged
  end.

Fixpoint exists_loop (containerName : string)
  (instances : list (string * types.Instance)) (exists_ : bool) : bool :=
  match instances with
  | [] => exists_
  | (_, instance) :: rest =>
      if String.eqb (types.Name instance) containerName then true
      else exists_loop containerName rest exists_
  end.

Definition checkHostnameExists (session : types.Session) (hostname : string)
  : outcome bool :=
  match slice_to (types.Id session) 8 with
  | Return prefix =>
      let containerName := prefix +:+ "_" +:+ hostname in
      Return (exists_loop containerName (map_to_list (types.Instances session)) false)
  | Panic msg => Panic msg
  | OutOfFuel => OutOfFuel
  end.

(** The loop [for i := 1; ; i++] of lines 215-221, started at [i]. *)
Fixpoint nodeName_loop (fuel : nat) (session : types.Session) (i : Z)
  : outcome string :=
  match fuel with
  | O => OutOfFuel
  | S fuel' =>
      let nodeName := "node" +:+ pretty i in
      match checkHostnameExists session nodeName with
      | Return true => nodeName_loop fuel' session (Go.int_incr i)
      | Return false => Return nodeName
      | Panic msg => Panic msg
      | OutOfFuel => OutOfFuel
      end
  end.

(** Lines 213-223: the host name of the new instance, the given one or,
    when none is given, the one the loop finds. *)
Definition hostname_of (fuel : nat) (session : types.Session) (conf : InstanceConfig)
  : outcome string :=
  if String.eqb (Hostname conf) "" then nodeName_loop fuel session 1
  else Return (Hostname conf).

(** The condition of line 175:
    [err != nil && !strings.Contains(err.Error(), "No such container")]. *)
Definition is_engine_failure (err : option Go.error) : bool :=
  match err with
  | Some e => negb (Go.Contains e "No such container")
  | None => false
  end.

(** *** Computations that also use the HTTP client *)

(** The world of [M] and, beside it, the calls made to the HTTP client,
    oldest first. *)
Record WorldH : Type := {
  world : World;
  http_calls : list http.Call
}.

Definition MH (A : Type) : Type := WorldH → outcome A * WorldH.

#[global] Instance MH_ret : MRet MH := λ A a w, (Return a, w).

#[global] Instance MH_bind : MBind MH := λ A B f m w,
  match m w with
  | (Return a, w') => f a w'
  | (Panic msg, w') => (Panic msg, w')
  | (OutOfFuel, w') => (OutOfFuel, w')
  end.

(** A computation of [M], run on the [world] part. *)
Definition liftH {A : Type} (m : M A) : MH A := λ wh,
  let '(r, w') := m (world wh) in
  (r, {| world := w'; http_calls := http_calls wh |}).

Definition http_call (c : http.Call) : MH unit := λ wh,
  (Return tt, {| world := world wh; http_calls := http_calls wh ++ [c] |}).

Definition deferH {A : Type} (d : MH unit) (body : MH A) : MH A := λ wh,
  let '(r, wh1) := body wh in (r, (d wh1).2).

Section Pwd.

(** [config.GetDindImageName()]: the configured default image. *)
Variable GetDindImageName : string.

(** [encoding.Replacement.NewEncoder()] wrapped around a writer: from the
    chunks written to it, the payloads that reach the writer below. *)
Variable ReplacementWriter : list string → list string.

(** [io.Copy(encoder.Writer(sw), conn)] *)
Definition io_Copy (sw : sessionWriter) (conn : net.Conn) : M unit :=
  chunks ← conn_ReadAll conn;
  write_all (sessionWriter_Write sw) (ReplacementWriter chunks).

Definition InstanceAttachTerminal (p : pwd) (instance : types.Instance)
  : M (option Go.error) :=
  registered ← gets (getInstanceTermConn (types.SessionId instance) (types.Name instance));
  match registered with
  | Some _ => mret None
  | None =>
      r ← docker_CreateAttachConnection p (types.Name instance);
      match r with
      | inr err => mret (Some err)
      | inl conn =>
          let sw := {| sessionId := types.Session_Id instance;
                       instanceName := types.Name instance |} in
          register (types.SessionId instance) (types.Name instance) conn;;
          io_Copy sw conn;;
          mret None
      end
  end.

Definition getInstanceCWD (p : pwd) (instance : types.Instance)
  : M (string * option Go.error) :=
  '(b, c, err) ← docker_ExecAttach p (types.Name instance)
                   ["bash"; "-c"; "pwdx $(</var/run/cwd)"];
  if (0 <? c)%Z then
    log_Println b;;
    mret ("", Some ("Error " +:+ pretty c +:+ " trying to get CWD"))
  else
    match err with
    | Some e => mret ("", Some e)
    | None =>
        piece ← lift (index (Go.Split b ":"%char) 1);
        mret (Go.TrimSpace piece, None)
    end.

Definition InstanceUploadFromReader (p : pwd) (instance : types.Instance)
  (fileName dest reader : string) : M (option Go.error) :=
  defer (observeAction "InstanceUploadFromReader")
    (resolved ←
       (if Go.IsAbs dest then mret (inl dest)
        else
          '(cwd, err) ← getInstanceCWD p instance;
          match err with
          | Some e => mret (inr e)
          | None => mret (inl (cwd +:+ "/" +:+ dest))
          end);
     match resolved with
     | inr e => mret (Some e)
     | inl finalDest =>
         copyErr ← docker_CopyToContainer p (types.Name instance) finalDest fileName reader;
         match copyErr with
         | Some e =>
             mret (Some ("Error while uploading file [" +:+ fileName +:+
                         "]. Error: " +:+ e +:+ Go.newline))
         | None => mret None
         end
     end).

Definition InstanceDelete (p : pwd) (session : types.Session) (instance : types.Instance)
  : M (option Go.error) :=
  defer (observeAction "InstanceDelete")
    (conn ← gets (getInstanceTermConn (types.Id session) (types.Name instance));
     match conn with
     | Some c => conn_Close c
     | None => mret tt
     end;;
     err ← docker_DeleteContainer p (types.Name instance);
     if is_engine_failure err then
       log_Println (default "" err);;
       mret err
     else
       event_Emit event.INSTANCE_DELETE (types.Id session) [types.Name instance];;
       err ← storage_InstanceDelete p (types.Id session) (types.Name instance);
       match err with
       | Some e => mret (Some e)
       | None => setGauges;; mret None
       end).

Definition InstanceAllowedImages (p : pwd) : M (list string) :=
  defer (observeAction "InstanceAllowedImages")
    (mret [GetDindImageName; "franela/dind:overlay2-dev"; "franela/ucp:2.4.1"]).

(** The options of lines 226-237, before the allow-list is consulted. *)
Definition newOpts (session : types.Session) (conf : InstanceConfig)
  (conf_ImageName conf_Hostname containerName : string) : docker.CreateContainerOpts :=
  {| docker.Image := conf_ImageName;
     docker.SessionId := types.Id session;
     docker.PwdIpAddress := types.PwdIpAddress session;
     docker.ContainerName := containerName;
     docker.Hostname := conf_Hostname;
     docker.ServerCert := ServerCert conf;
     docker.ServerKey := ServerKey conf;
     docker.CACert := CACert conf;
     docker.Privileged := false;
     docker.HostFQDN := Host conf |}.

(** [opts.Privileged = true] *)
Definition setPrivileged (privileged : bool) (opts : docker.CreateContainerOpts)
  : docker.CreateContainerOpts :=
  {| docker.Image := docker.Image opts;
     docker.SessionId := docker.SessionId opts;
     docker.PwdIpAddress := docker.PwdIpAddress opts;
     docker.ContainerName := docker.ContainerName opts;
     docker.Hostname := docker.Hostname opts;
     docker.ServerCert := docker.ServerCert opts;
     docker.ServerKey := docker.ServerKey opts;
     docker.CACert := docker.CACert opts;
     docker.Privileged := privileged;
     docker.HostFQDN := docker.HostFQDN opts |}.

(** The instance record of lines 251-265. *)
Definition newInstance (session : types.Session) (conf : InstanceConfig)
  (opts : docker.CreateContainerOpts) (ip conf_Hostname containerName : string)
  : types.Instance :=
  {| types.Image := docker.Image opts;
     types.IP := ip;
     types.SessionId := types.Id session;
     types.Name := containerName;
     types.Hostname := conf_Hostname;
     types.Alias := Alias conf;
     types.Cert := Cert conf;
     types.Key := Key conf;
     types.ServerCert := ServerCert conf;
     types.ServerKey := ServerKey conf;
     types.CACert := CACert conf;
     types.Session_Id := types.Id session;
     types.IsDockerHost := docker.Privileged opts |}.

(** [session.Instances[instance.Name] = instance] *)
Definition addInstance (instance : types.Instance) (session : types.Session)
  : types.Session :=
  {| types.Id := types.Id session;
     types.PwdIpAddress := types.PwdIpAddress session;
     types.Instances :=
       <[types.Name instance := instance]> (types.Instances session) |}.

(** Lines 208-210: the image the call uses. *)
Definition imageName (conf : InstanceConfig) : string :=
  if String.eqb (ImageName conf) "" then GetDindImageName else ImageName conf.

(** [InstanceNew] changes the session it is given through the pointer; the
    session as it is when the call is left comes back with the result.
    [fuel] bounds the iterations of the host name loop.  The goroutine
    started at line 272 is recorded in the trace; it runs
    [InstanceAttachTerminal] on its own, later. *)
Definition InstanceNew (fuel : nat) (p : pwd) (session : types.Session)
  (conf : InstanceConfig)
  : M (types.Session * (option types.Instance * option Go.error)) :=
  defer (observeAction "InstanceNew")
    (call (Lock (types.Id session));;
     defer (call (Unlock (types.Id session)))
       (let conf_ImageName := imageName conf in
        log_Println ("NewInstance - using image: [" +:+ conf_ImageName +:+ "]");;
        conf_Hostname ← lift (hostname_of fuel session conf);
        prefix ← lift (slice_to (types.Id session) 8);
        let containerName := prefix +:+ "_" +:+ conf_Hostname in
        let opts := newOpts session conf conf_ImageName conf_Hostname containerName in
        allowed ← InstanceAllowedImages p;
        let opts :=
          setPrivileged (privileged_loop conf_ImageName allowed (docker.Privileged opts))
            opts in
        '(ip, err) ← docker_CreateContainer p opts;
        match err with
        | Some e => mret (session, (None, Some e))
        | None =>
            let instance := newInstance session conf opts ip conf_Hostname containerName in
            let session := addInstance instance session in
            call (GoInstanceAttachTerminal instance);;
            err ← storage_InstanceCreate p (types.Id session) instance;
            match err with
            | Some e => mret (session, (None, Some e))
            | None =>
                event_Emit event.INSTANCE_NEW (types.Id session)
                  [types.Name instance; types.IP instance; types.Hostname instance];;
                setGauges;;
                mret (session, (Some instance, None))
            end
        end)).

(** The options [InstanceNew] hands to the engine and the instance it
    builds, for the host name and the session prefix it arrived at. *)
Definition InstanceNew_opts (session : types.Session) (conf : InstanceConfig)
  (hostname prefix : string) : docker.CreateContainerOpts :=
  let opts :=
    newOpts session conf (imageName conf) hostname (prefix +:+ "_" +:+ hostname) in
  setPrivileged
    (privileged_loop (imageName conf)
       [GetDindImageName; "franela/dind:overlay2-dev"; "franela/ucp:2.4.1"]
       (docker.Privileged opts))
    opts.

Definition InstanceNew_instance (p : pwd) (session : types.Session)
  (conf : InstanceConfig) (hostname prefix : string) : types.Instance :=
  let opts := InstanceNew_opts session conf hostname prefix in
  newInstance session conf opts (docker.CreateContainer (docker_api p) opts).1
    hostname (prefix +:+ "_" +:+ hostname).

Definition InstanceWriteToTerminal (p : pwd) (sessionId instanceName data : string)
  : M unit :=
  defer (observeAction "InstanceWriteToTerminal")
    (conn ← gets (getInstanceTermConn sessionId instanceName);
     match conn with
     | Some c =>
         if (0 <? String.length data)%nat then conn_Write c data;; mret tt
         else mret tt
     | None => mret tt
     end).


(** [http.Get(url)], by its answer: a response, or the error of the
    transport. *)
Variable http_Get : string → http.Response + Go.error.

Definition InstanceGet (p : pwd) (session : types.Session) (name : string)
  : M (option types.Instance) :=
  defer (observeAction "InstanceGet")
    (mret (types.Instances session !! name)).

Definition InstanceUploadFromUrl (p : pwd) (instance : types.Instance)
  (fileName dest url : string) : MH (option Go.error) :=
  deferH (liftH (observeAction "InstanceUploadFromUrl"))
    (liftH (log_Println ("Downloading file [" +:+ url +:+ "]"));;
     http_call (http.Get url);;
     match http_Get url with
     | inr err =>
         mret (Some ("Could not download file [" +:+ url +:+ "]. Error: " +:+
                     err +:+ Go.newline))
     | inl resp =>
         deferH (http_call (http.BodyClose url))
           (if negb (http.StatusCode resp =? 200)%Z then
              mret (Some ("Could not download file [" +:+ url +:+
                          "]. Status code: " +:+ pretty (http.StatusCode resp) +:+
                          Go.newline))
            else
              copyErr ← liftH (docker_CopyToContainer p (types.Name instance) dest
                                 fileName (http.Body resp));
              match copyErr with
              | Some e =>
                  mret (Some ("Error while downloading file [" +:+ url +:+
                              "]. Error: " +:+ e +:+ Go.newline))
              | None => mret None
              end)
     end).

(** The calls a computation adds to the trace of the world it starts in. *)
Definition calls_of {A : Type} (m : M A) (w : World) : list Call :=
  drop (length (trace w)) (trace (m w).2).

(** Some instance of the session has this container name. *)
Definition has_container (session : types.Session) (containerName : string) : Prop :=
  ∃ k instance,
    types.Instances session !! k = Some instance ∧ types.Name instance = containerName.

(** ** Fixtures: collaborators, sessions and worlds to run the code on *)

Definition engine (gone : option Go.error) (out : string) (code : Z) : docker.DockerApi :=
  {| docker.CreateContainer := λ _, ("10.0.0.5", None);
     docker.DeleteContainer := λ _, gone;
     docker.CreateAttachConnection := λ _, inl 1;
     docker.ExecAttach := λ _ _, (out, code, None);
     docker.CopyToContainer := λ _ _ _ _, None |}.

Definition store (answer : option Go.error) : storage.StorageApi :=
  {| storage.InstanceCreate := λ _ _, answer;
     storage.InstanceDelete := λ _ _, answer |}.

(** Everything works; [pwdx] prints the working directory [/root]. *)
Definition p_ok : pwd :=
  {| docker_api := engine None ("1234: /root" +:+ Go.newline) 0;
     storage_api := store None |}.

(** The engine no longer knows the container. *)
Definition p_gone : pwd :=
  {| docker_api := engine (Some "Error: No such container: aaaaaaaa_node1") "" 0;
     storage_api := store None |}.

(** The engine no longer knows the container, and the storage is down. *)
Definition p_gone_store_down : pwd :=
  {| docker_api := engine (Some "Error: No such container: aaaaaaaa_node1") "" 0;
     storage_api := store (Some "storage down") |}.

(** The engine fails to delete. *)
Definition p_engine_down : pwd :=
  {| docker_api := engine (Some "cannot connect to the Docker daemon") "" 0;
     storage_api := store None |}.

(** The storage is down. *)
Definition p_store_down : pwd :=
  {| docker_api := engine None "" 0; storage_api := store (Some "storage down") |}.

(** The working-directory command exits with 0 and prints no colon. *)
Definition p_no_colon : pwd :=
  {| docker_api := engine None "" 0; storage_api := store None |}.

Definition sid : string := "aaaaaaaabbbbcccc".

Definition node (name : string) : types.Instance :=
  {| types.Image := "franela/dind";
     types.Name := name;
     types.Hostname := String.substring 9 5 name;
     types.IP := "10.0.0.2";
     types.SessionId := sid;
     types.Alias := "";
     types.ServerCert := [];
     types.ServerKey := [];
     types.CACert := [];
     types.Cert := [];
     types.Key := [];
     types.Session_Id := sid;
     types.IsDockerHost := true |}.

(** A session whose instances are node1, node2 and node4. *)
Definition session124 : types.Session :=
  {| types.Id := sid;
     types.PwdIpAddress := "10.0.0.1";
     types.Instances :=
       list_to_map [("aaaaaaaa_node1", node "aaaaaaaa_node1");
                    ("aaaaaaaa_node2", node "aaaaaaaa_node2");
                    ("aaaaaaaa_node4", node "aaaaaaaa_node4")] |}.

(** A session whose id has seven characters. *)
Definition short_session : types.Session :=
  {| types.Id := "abcdefg"; types.PwdIpAddress := "10.0.0.1"; types.Instances := ∅ |}.

Definition conf_default : InstanceConfig :=
  {| ImageName := ""; Alias := ""; Hostname := ""; ServerCert := []; ServerKey := [];
     CACert := []; Cert := []; Key := []; Host := "" |}.

Definition conf_image (image : string) : InstanceConfig :=
  {| ImageName := image; Alias := ""; Hostname := ""; ServerCert := []; ServerKey := [];
     CACert := []; Cert := []; Key := []; Host := "" |}.

Definition world0 : World := {| terms := ∅; conns := ∅; trace := [] |}.

(** A world in which node1 of the session has its terminal attached. *)
Definition world_attached : World :=
  {| terms := {[sid := {["aaaaaaaa_node1" := 1]}]};
     conns := {[1 := net.fresh]};
     trace := [] |}.

(** Every instance of the session is stored under its own name. *)
Definition keyed_by_name (session : types.Session) : Prop :=
  ∀ k instance, types.Instances session !! k = Some instance →
                types.Name instance = k.

(** The engine cannot create containers. *)
Definition p_create_down : pwd :=
  {| docker_api :=
       {| docker.CreateContainer := λ _, ("", Some "no space left on device");
          docker.DeleteContainer := λ _, None;
          docker.CreateAttachConnection := λ _, inl 1;
          docker.ExecAttach := λ _ _, ("", 0%Z, None);
          docker.CopyToContainer := λ _ _ _ _, None |};
     storage_api := store None |}.

(** The engine cannot attach, and cannot copy. *)
Definition p_attach_down : pwd :=
  {| docker_api :=
       {| docker.CreateContainer := λ _, ("10.0.0.5", None);
          docker.DeleteContainer := λ _, None;
          docker.CreateAttachConnection := λ _, inr "container is not running";
          docker.ExecAttach := λ _ _, ("", 0%Z, None);
          docker.CopyToContainer := λ _ _ _ _, Some "no such directory" |};
     storage_api := store None |}.

(** The working-directory command fails to run. *)
Definition p_exec_down : pwd :=
  {| docker_api :=
       {| docker.CreateContainer := λ _, ("10.0.0.5", None);
          docker.DeleteContainer := λ _, None;
          docker.CreateAttachConnection := λ _, inl 1;
          docker.ExecAttach := λ _ _, ("", 0%Z, Some "exec failed");
          docker.CopyToContainer := λ _ _ _ _, None |};
     storage_api := store None |}.

(** A world in which connection 1 has two chunks of output to give. *)
Definition world_stream : World :=
  {| terms := ∅;
     conns := {[1 := {| net.closed := false; net.received := [];
                        net.pending := ["he"; "llo"] |}]};
     trace := [] |}.

Definition worldH0 : WorldH := {| world := world0; http_calls := [] |}.

(** HTTP clients: the file is there, it is not found, the host is down. *)
Definition get_ok (url : string) : http.Response + Go.error :=
  inl {| http.StatusCode := 200; http.Body := "content" |}.

Definition get_404 (url : string) : http.Response + Go.error :=
  inl {| http.StatusCode := 404; http.Body := "not found" |}.

Definition get_down (url : string) : http.Response + Go.error :=
  inr "connection refused".

Definition conf_hostname (hostname : string) : InstanceConfig :=
  {| ImageName := ""; Alias := ""; Hostname := hostname; ServerCert := [];
     ServerKey := []; CACert := []; Cert := []; Key := []; Host := "" |}.

(** The instance [InstanceNew] builds for host name [hostname] in the
    session of the fixtures, from the default image [franela/dind] and the
    address the engine of the fixtures answers. *)
Definition created (hostname : string) : types.Instance :=
  {| types.Image := "franela/dind";
     types.Name := "aaaaaaaa_" +:+ hostname;
     types.Hostname := hostname;
     types.IP := "10.0.0.5";
     types.SessionId := sid;
     types.Alias := "";
     types.ServerCert := [];
     types.ServerKey := [];
     types.CACert := [];
     types.Cert := [];
     types.Key := [];
     types.Session_Id := sid;
     types.IsDockerHost := true |}.

(** The engine's working-directory command prints [out] and exits with
    [code]. *)
Definition p_cwd (out : string) (code : Z) : pwd :=
  {| docker_api := engine None out code; storage_api := store None |}.

(** ** Properties of the library functions *)

Lemma int_wrap_in_range (z : Z) :
  (- 2 ^ 63 ≤ z < 2 ^ 63)%Z → Go.int_wrap z = z.
Proof.
  intros Hz. unfold Go.int_wrap.
  rewrite Z.mod_small by lia. lia.
Qed.

Lemma int_incr_in_range (i : Z) :
  (- 2 ^ 63 ≤ i < 2 ^ 63 - 1)%Z → Go.int_incr i = (i + 1)%Z.
Proof. intros Hi. unfold Go.int_incr. apply int_wrap_in_range. lia. Qed.

Lemma slice_to_long (s : string) (n : nat) :
  (n ≤ String.length s)%nat → slice_to s n = Return (String.substring 0 n s).
Proof.
  intros Hn. unfold slice_to, Go.slice_to.
  destruct (decide (n ≤ String.length s)%nat); [reflexivity | contradiction].
Qed.

Lemma slice_to_short (s : string) (n : nat) :
  (String.length s < n)%nat → slice_to s n = Panic "slice bounds out of range".
Proof.
  intros Hn. unfold slice_to, Go.slice_to.
  destruct (decide (n ≤ String.length s)%nat); [lia | reflexivity].
Qed.

Lemma prefix_one_char (a c : ascii) (s : string) :
  String.prefix (String a "") (String c s) = true ↔ a = c.
Proof.
  cbn. destruct (ascii_dec a c) as [->|Hne]; split; intros H; try done.
  by destruct s.
Qed.

Lemma Split_no_separator (s : string) (sep : ascii) :
  Go.Contains s (String sep "") = false → Go.Split s sep = [s].
Proof.
  induction s as [|c s IH]; intros H; [reflexivity|].
  cbn [Go.Contains] in H. apply orb_false_elim in H as [Hp Hs].
  cbn [Go.Split]. destruct (Ascii.eqb_spec c sep) as [->|Hne].
  - exfalso. assert (String.prefix (String sep "") (String sep s) = true) as Ht
      by (by apply prefix_one_char).
    congruence.
  - by rewrite (IH Hs).
Qed.

Lemma privileged_loop_spec (image : string) (allowed : list string) :
  privileged_loop image allowed false = true ↔ image ∈ allowed.
Proof.
  induction allowed as [|a l IH]; cbn.
  - split; [done | by intros ?%elem_of_nil].
  - destruct (String.eqb_spec image a) as [->|Hne].
    + split; [intros _; apply list_elem_of_here | done].
    + rewrite IH. split; [apply list_elem_of_further |].
      intros [?|?]%elem_of_cons; [contradiction | done].
Qed.

Lemma exists_loop_spec (containerName : string) (l : list (string * types.Instance)) :
  exists_loop containerName l false = true ↔
  ∃ k instance, (k, instance) ∈ l ∧ types.Name instance = containerName.
Proof.
  induction l as [|[k i] l IH]; cbn.
  - split; [done | by intros (? & ? & ?%elem_of_nil & _)].
  - destruct (String.eqb_spec (types.Name i) containerName) as [Heq|Hne].
    + split; [|done]. intros _. exists k, i. split; [apply list_elem_of_here | done].
    + rewrite IH. split.
      * intros (k' & i' & Hin & Hn). exists k', i'.
        split; [by apply list_elem_of_further | done].
      * intros (k' & i' & Hin & Hn). apply elem_of_cons in Hin as [Heq|Hin].
        -- congruence.
        -- by exists k', i'.
Qed.

(** ** The host name scan *)

Lemma checkHostnameExists_short (session : types.Session) (hostname : string) :
  (String.length (types.Id session) < 8)%nat →
  checkHostnameExists session hostname = Panic "slice bounds out of range".
Proof.
  intros Hlen. unfold checkHostnameExists. by rewrite slice_to_short.
Qed.

Lemma checkHostnameExists_long (session : types.Session) (hostname : string) :
  (8 ≤ String.length (types.Id session))%nat →
  ∃ b, checkHostnameExists session hostname = Return b ∧
       (b = true ↔
        has_container session
          (String.substring 0 8 (types.Id session) +:+ "_" +:+ hostname)).
Proof.
  intros Hlen. unfold checkHostnameExists. rewrite slice_to_long by done.
  eexists. split; [reflexivity|].
  rewrite exists_loop_spec. unfold has_container.
  by setoid_rewrite elem_of_map_to_list.
Qed.

Lemma node_name_inj (prefix : string) :
  Inj (=) (=) (λ i : Z, prefix +:+ "_" +:+ "node" +:+ pretty i).
Proof.
  intros i j Heq.
  apply String.app_inj in Heq. apply (String.app_inj "_") in Heq.
  apply (String.app_inj "node") in Heq. by apply pretty_Z_inj in Heq.
Qed.

(** Pigeonhole: the session has at least as many instances as there are
    numbered names in use. *)
Lemma node_names_bounded (session : types.Session) (prefix : string) (n : Z) :
  (∀ j, (1 ≤ j ≤ n)%Z →
        has_container session (prefix +:+ "_" +:+ "node" +:+ pretty j)) →
  (n ≤ Z.of_nat (size (types.Instances session)))%Z.
Proof.
  intros Hused.
  set (f := λ i : Z, prefix +:+ "_" +:+ "node" +:+ pretty i).
  set (names := (λ ki : string * types.Instance, types.Name ki.2) <$>
                map_to_list (types.Instances session)).
  assert (f <$> seqZ 1 n ⊆+ names) as Hsub.
  { apply NoDup_submseteq.
    - apply (@NoDup_fmap_2 _ _ f (node_name_inj prefix)), NoDup_seqZ.
    - intros x (j & -> & Hj%elem_of_seqZ)%list_elem_of_fmap.
      destruct (Hused j) as (k & i & Hk & Hn); [lia|].
      apply list_elem_of_fmap. exists (k, i). split; [done|].
      by apply elem_of_map_to_list. }
  apply submseteq_length in Hsub.
  unfold names in Hsub.
  rewrite !length_fmap, length_seqZ, length_map_to_list in Hsub. lia.
Qed.

Lemma nodeName_loop_spec (session : types.Session) (fuel : nat) (i : Z) :
  (8 ≤ String.length (types.Id session))%nat →
  (Z.of_nat (size (types.Instances session)) < 2 ^ 63 - 1)%Z →
  (1 ≤ i)%Z →
  (∀ j, (1 ≤ j < i)%Z →
        has_container session
          (String.substring 0 8 (types.Id session) +:+ "_" +:+ "node" +:+ pretty j)) →
  (Z.of_nat (size (types.Instances session)) + 1 < Z.of_nat fuel + i)%Z →
  ∃ N : Z,
    (i ≤ N)%Z ∧
    nodeName_loop fuel session i = Return ("node" +:+ pretty N) ∧
    ¬ has_container session
        (String.substring 0 8 (types.Id session) +:+ "_" +:+ "node" +:+ pretty N) ∧
    ∀ j, (1 ≤ j < N)%Z →
         has_container session
           (String.substring 0 8 (types.Id session) +:+ "_" +:+ "node" +:+ pretty j).
Proof.
  intros Hlen Hsize. revert i.
  induction fuel as [|fuel IH]; intros i Hi Hbelow Hfuel.
  - exfalso.
    assert (i - 1 ≤ Z.of_nat (size (types.Instances session)))%Z; [|lia].
    apply (node_names_bounded session (String.substring 0 8 (types.Id session))).
    intros j Hj. apply Hbelow. lia.
  - cbn [nodeName_loop].
    destruct (checkHostnameExists_long session ("node" +:+ pretty i) Hlen)
      as (b & -> & Hb).
    destruct b.
    + assert (∀ j, (1 ≤ j < i + 1)%Z →
                has_container session
                  (String.substring 0 8 (types.Id session) +:+ "_" +:+
                   "node" +:+ pretty j)) as Hbelow'.
      { intros j Hj. destruct (decide (j = i)) as [->|Hne].
        - by apply Hb.
        - apply Hbelow. lia. }
      assert (i ≤ Z.of_nat (size (types.Instances session)))%Z as Hbound.
      { apply (node_names_bounded session (String.substring 0 8 (types.Id session))).
        intros j Hj. apply Hbelow'. lia. }
      rewrite int_incr_in_range by lia.
      destruct (IH (i + 1)%Z) as (N & HN & Hrun & Hfree & Hused);
        [lia | done | lia |].
      exists N. split; [lia | done].
    + exists i. split; [lia|]. split; [done|]. split; [|done].
      intros Hc. apply Hb in Hc. done.
Qed.

(** ** The operations, unfolded *)

Lemma record_all_record_all (cs1 cs2 : list Call) (w : World) :
  record_all cs2 (record_all cs1 w) = record_all (cs1 ++ cs2) w.
Proof. unfold record_all. cbn. by rewrite app_assoc. Qed.

Lemma record_as_record_all (c : Call) (w : World) : record c w = record_all [c] w.
Proof. reflexivity. Qed.

Lemma calls_of_record_all {A : Type} (m : M A) (w w1 : World) (cs : list Call) :
  (m w).2 = record_all cs w1 → trace w1 = trace w → calls_of m w = cs.
Proof.
  intros Hrun Htrace. unfold calls_of. rewrite Hrun. cbn.
  rewrite Htrace. by rewrite drop_app_length.
Qed.

Ltac step_M :=
  unfold defer, docker_CreateContainer, docker_DeleteContainer,
    docker_CreateAttachConnection, docker_ExecAttach, docker_CopyToContainer,
    storage_InstanceCreate, storage_InstanceDelete, event_Emit, observeAction,
    setGauges, log_Println, call, modify, gets, lift, mbind, M_bind, mret, M_ret;
  cbn.

Ltac flatten_trace :=
  rewrite ?record_as_record_all, ?record_all_record_all; cbn [app].

(** A call is not in an explicit list of calls of other kinds. *)
Ltac not_in_calls :=
  let H := fresh "Hin" in
  intros H;
  repeat (apply elem_of_cons in H as [H|H]; [discriminate H|]);
  by apply elem_of_nil in H.

Lemma InstanceAllowedImages_eq (p : pwd) (w : World) :
  InstanceAllowedImages p w =
  (Return [GetDindImageName; "franela/dind:overlay2-dev"; "franela/ucp:2.4.1"],
   record (ObserveAction "InstanceAllowedImages") w).
Proof. reflexivity. Qed.

Lemma InstanceNew_eq (fuel : nat) (p : pwd) (session : types.Session)
  (conf : InstanceConfig) (w : World) :
  InstanceNew fuel p session conf w =
  let sid := types.Id session in
  let enter := [Lock sid; Log ("NewInstance - using image: [" +:+ imageName conf +:+ "]")] in
  let leave := [Unlock sid; ObserveAction "InstanceNew"] in
  match hostname_of fuel session conf with
  | Panic msg => (Panic msg, record_all (enter ++ leave) w)
  | OutOfFuel => (OutOfFuel, record_all (enter ++ leave) w)
  | Return hostname =>
      match slice_to sid 8 with
      | Panic msg => (Panic msg, record_all (enter ++ leave) w)
      | OutOfFuel => (OutOfFuel, record_all (enter ++ leave) w)
      | Return prefix =>
          let opts := InstanceNew_opts session conf hostname prefix in
          let instance := InstanceNew_instance p session conf hostname prefix in
          let create :=
            [ObserveAction "InstanceAllowedImages"; DockerCreateContainer opts] in
          match (docker.CreateContainer (docker_api p) opts).2 with
          | Some e =>
              (Return (session, (None, Some e)),
               record_all (enter ++ create ++ leave) w)
          | None =>
              let persist :=
                [GoInstanceAttachTerminal instance; StorageInstanceCreate sid instance] in
              match storage.InstanceCreate (storage_api p) sid instance with
              | Some e =>
                  (Return (addInstance instance session, (None, Some e)),
                   record_all (enter ++ create ++ persist ++ leave) w)
              | None =>
                  (Return (addInstance instance session, (Some instance, None)),
                   record_all
                     (enter ++ create ++ persist ++
                      [Emit event.INSTANCE_NEW sid
                         [types.Name instance; types.IP instance;
                          types.Hostname instance];
                       SetGauges] ++ leave) w)
              end
          end
      end
  end%list.
Proof.
  unfold InstanceNew, InstanceAllowedImages, InstanceNew_instance, InstanceNew_opts.
  step_M.
  destruct (hostname_of fuel session conf) as [hostname|msg|]; cbn;
    [|by flatten_trace..].
  destruct (slice_to (types.Id session) 8) as [prefix|msg|]; cbn;
    [|by flatten_trace..].
  destruct (docker.CreateContainer _ _) as [ip [e|]]; cbn; [by flatten_trace|].
  destruct (storage.InstanceCreate _ _ _) as [e|]; cbn; by flatten_trace.
Qed.

Lemma InstanceDelete_eq (p : pwd) (session : types.Session)
  (instance : types.Instance) (w : World) :
  InstanceDelete p session instance w =
  let sid := types.Id session in
  let name := types.Name instance in
  let w1 :=
    match getInstanceTermConn sid name w with
    | Some c => (conn_Close c w).2
    | None => w
    end in
  let err := docker.DeleteContainer (docker_api p) name in
  if is_engine_failure err then
    (Return err,
     record_all [DockerDeleteContainer name; Log (default "" err);
                 ObserveAction "InstanceDelete"] w1)
  else
    match storage.InstanceDelete (storage_api p) sid name with
    | Some e =>
        (Return (Some e),
         record_all [DockerDeleteContainer name;
                     Emit event.INSTANCE_DELETE sid [name];
                     StorageInstanceDelete sid name;
                     ObserveAction "InstanceDelete"] w1)
    | None =>
        (Return None,
         record_all [DockerDeleteContainer name;
                     Emit event.INSTANCE_DELETE sid [name];
                     StorageInstanceDelete sid name;
                     SetGauges;
                     ObserveAction "InstanceDelete"] w1)
    end.
Proof.
  unfold InstanceDelete, conn_Close. step_M.
  destruct (getInstanceTermConn _ _ w) as [c|]; cbn;
    (destruct (is_engine_failure _); cbn; [flatten_trace; reflexivity|]);
    (destruct (storage.InstanceDelete _ _ _); cbn; flatten_trace; reflexivity).
Qed.

Lemma InstanceWriteToTerminal_eq (p : pwd) (sessionId instanceName data : string)
  (w : World) :
  InstanceWriteToTerminal p sessionId instanceName data w =
  (Return tt,
   record (ObserveAction "InstanceWriteToTerminal")
     match getInstanceTermConn sessionId instanceName w with
     | Some c => if (0 <? String.length data)%nat then (conn_Write c data w).2 else w
     | None => w
     end).
Proof.
  unfold InstanceWriteToTerminal. step_M.
  destruct (getInstanceTermConn _ _ w) as [c|]; cbn; [|done].
  destruct (String.length data); cbn; [done|].
  unfold conn_Write. by destruct (net.closed _).
Qed.

(** ** Deleting an instance *)

Lemma InstanceDelete_terms (p : pwd) (session : types.Session)
  (instance : types.Instance) (w : World) :
  terms (InstanceDelete p session instance w).2 = terms w.
Proof.
  rewrite InstanceDelete_eq. cbn zeta.
  destruct (is_engine_failure _); [|destruct (storage.InstanceDelete _ _ _)];
    cbn; by destruct (getInstanceTermConn _ _ w).
Qed.

Lemma InstanceDelete_conns (p : pwd) (session : types.Session)
  (instance : types.Instance) (w : World) :
  conns (InstanceDelete p session instance w).2 =
  match getInstanceTermConn (types.Id session) (types.Name instance) w with
  | Some c => conns (conn_Close c w).2
  | None => conns w
  end.
Proof.
  rewrite InstanceDelete_eq. cbn zeta.
  destruct (is_engine_failure _); [|destruct (storage.InstanceDelete _ _ _)];
    cbn; by destruct (getInstanceTermConn _ _ w).
Qed.

Lemma conn_Close_closed (c : net.Conn) (w : World) :
  net.closed (conn_state (conn_Close c w).2 c) = true.
Proof. unfold conn_state. cbn. by rewrite lookup_insert_eq. Qed.

Lemma InstanceDelete_closes (p : pwd) (session : types.Session)
  (instance : types.Instance) (w : World) (c : net.Conn) :
  getInstanceTermConn (types.Id session) (types.Name instance) w = Some c →
  net.closed (conn_state (InstanceDelete p session instance w).2 c) = true.
Proof.
  intros Hc. unfold conn_state. rewrite InstanceDelete_conns, Hc.
  apply conn_Close_closed.
Qed.

Lemma InstanceDelete_calls (p : pwd) (session : types.Session)
  (instance : types.Instance) (w : World) :
  let sid := types.Id session in
  let name := types.Name instance in
  let err := docker.DeleteContainer (docker_api p) name in
  calls_of (InstanceDelete p session instance) w =
  if is_engine_failure err then
    [DockerDeleteContainer name; Log (default "" err); ObserveAction "InstanceDelete"]
  else
    ([DockerDeleteContainer name; Emit event.INSTANCE_DELETE sid [name];
      StorageInstanceDelete sid name] ++
     match storage.InstanceDelete (storage_api p) sid name with
     | Some _ => []
     | None => [SetGauges]
     end ++ [ObserveAction "InstanceDelete"])%list.
Proof.
  cbn zeta.
  set (w1 := match getInstanceTermConn (types.Id session) (types.Name instance) w with
             | Some c => (conn_Close c w).2
             | None => w
             end).
  assert (trace w1 = trace w) as Htrace
    by (unfold w1; by destruct (getInstanceTermConn _ _ w)).
  eapply calls_of_record_all; [|exact Htrace].
  rewrite InstanceDelete_eq. cbn zeta. fold w1.
  destruct (is_engine_failure _); [reflexivity|].
  by destruct (storage.InstanceDelete _ _ _).
Qed.

(** C6. When the engine's [DeleteContainer] fails with an error that does
    not report a missing container, [InstanceDelete] returns that very
    error and stops: after the engine call it only logs the error (and
    leaves through the deferred latency observation).  No event is emitted,
    the storage is not asked to delete the record, the gauges are not
    updated. *)
Theorem InstanceDelete_engine_failure_aborts (p : pwd) (session : types.Session)
  (instance : types.Instance) (w : World) (e : Go.error) :
  docker.DeleteContainer (docker_api p) (types.Name instance) = Some e →
  Go.Contains e "No such container" = false →
  (InstanceDelete p session instance w).1 = Return (Some e) ∧
  calls_of (InstanceDelete p session instance) w =
    [DockerDeleteContainer (types.Name instance); Log e;
     ObserveAction "InstanceDelete"] ∧
  (∀ kind sid args, Emit kind sid args ∉ calls_of (InstanceDelete p session instance) w) ∧
  (∀ sid name, StorageInstanceDelete sid name ∉
               calls_of (InstanceDelete p session instance) w) ∧
  SetGauges ∉ calls_of (InstanceDelete p session instance) w.
Proof.
  intros He Hc.
  assert (is_engine_failure (docker.DeleteContainer (docker_api p) (types.Name instance))
          = true) as Hfail by (by rewrite He; cbn; rewrite Hc).
  pose proof (InstanceDelete_calls p session instance w) as Hcalls.
  cbn zeta in Hcalls. rewrite Hfail, He in Hcalls. cbn in Hcalls.
  split.
  - rewrite InstanceDelete_eq. cbn zeta. rewrite Hfail. cbn. by rewrite He.
  - rewrite Hcalls. split; [done|].
    split; [intros kind sid args; not_in_calls|].
    split; [intros sid name; not_in_calls | not_in_calls].
Qed.

(** C5, as the code has it.  When the engine reports the container as
    already gone (an error whose message contains "No such container"),
    [InstanceDelete] does not stop at that error: it emits the deletion
    event and asks the storage to delete the record.  What it returns is
    the storage's answer: nil, after updating the gauges, when the record
    was deleted, and the storage's error otherwise. *)
Theorem InstanceDelete_container_gone (p : pwd) (session : types.Session)
  (instance : types.Instance) (w : World) (e : Go.error) :
  docker.DeleteContainer (docker_api p) (types.Name instance) = Some e →
  Go.Contains e "No such container" = true →
  (InstanceDelete p session instance w).1 =
    Return (storage.InstanceDelete (storage_api p) (types.Id session)
              (types.Name instance)) ∧
  calls_of (InstanceDelete p session instance) w =
    ([DockerDeleteContainer (types.Name instance);
      Emit event.INSTANCE_DELETE (types.Id session) [types.Name instance];
      StorageInstanceDelete (types.Id session) (types.Name instance)] ++
     match storage.InstanceDelete (storage_api p) (types.Id session)
             (types.Name instance) with
     | Some _ => []
     | None => [SetGauges]
     end ++ [ObserveAction "InstanceDelete"])%list.
Proof.
  intros He Hc.
  assert (is_engine_failure (docker.DeleteContainer (docker_api p) (types.Name instance))
          = false) as Hfail by (by rewrite He; cbn; rewrite Hc).
  split.
  - rewrite InstanceDelete_eq. cbn zeta. rewrite Hfail.
    by destruct (storage.InstanceDelete _ _ _).
  - pose proof (InstanceDelete_calls p session instance w) as Hcalls.
    cbn zeta in Hcalls. by rewrite Hfail in Hcalls.
Qed.

(** C2, as the code has it.  [InstanceDelete] closes the channel registered
    for (session id, instance name) and leaves the registry as it was: the
    [terms] map is unchanged, so the channel, now closed, is still
    registered under its key. *)
Theorem InstanceDelete_keeps_registry (p : pwd) (session : types.Session)
  (instance : types.Instance) (w : World) (c : net.Conn) :
  getInstanceTermConn (types.Id session) (types.Name instance) w = Some c →
  terms (InstanceDelete p session instance w).2 = terms w ∧
  getInstanceTermConn (types.Id session) (types.Name instance)
    (InstanceDelete p session instance w).2 = Some c ∧
  net.closed (conn_state (InstanceDelete p session instance w).2 c) = true.
Proof.
  intros Hc. split; [apply InstanceDelete_terms|]. split.
  - unfold getInstanceTermConn in *. by rewrite InstanceDelete_terms.
  - by apply InstanceDelete_closes.
Qed.

(** ** Writing to a terminal *)

Lemma conn_Write_closed (c : net.Conn) (data : string) (w : World) :
  net.closed (conn_state w c) = true → (conn_Write c data w).2 = w.
Proof. intros Hc. unfold conn_Write. by rewrite Hc. Qed.

Lemma conn_Write_terms (c : net.Conn) (data : string) (w : World) :
  terms (conn_Write c data w).2 = terms w.
Proof. unfold conn_Write. by destruct (net.closed _). Qed.

Lemma conn_Write_trace (c : net.Conn) (data : string) (w : World) :
  trace (conn_Write c data w).2 = trace w.
Proof. unfold conn_Write. by destruct (net.closed _). Qed.

(** C7. [InstanceWriteToTerminal] has no error to give and never panics.
    Its only call outside is the deferred latency observation, and it never
    touches the registry.  With no channel registered for the key, or with
    an empty payload, the connections are left as they are; with a channel
    registered and a non-empty payload, the world is the one [conn.Write]
    leaves; so the connections change only in that case.  After
    [InstanceDelete] a write for the deleted instance changes nothing (but
    for the latency observation): the channel, if one is registered, is
    closed and refuses the payload, and the refusal is dropped. *)
Theorem InstanceWriteToTerminal_silent (p : pwd) (sessionId instanceName data : string)
  (w : World) :
  (InstanceWriteToTerminal p sessionId instanceName data w).1 = Return tt ∧
  calls_of (InstanceWriteToTerminal p sessionId instanceName data) w =
    [ObserveAction "InstanceWriteToTerminal"] ∧
  terms (InstanceWriteToTerminal p sessionId instanceName data w).2 = terms w ∧
  (getInstanceTermConn sessionId instanceName w = None ∨ data = "" →
   InstanceWriteToTerminal p sessionId instanceName data w =
     (Return tt, record (ObserveAction "InstanceWriteToTerminal") w)) ∧
  (∀ c, getInstanceTermConn sessionId instanceName w = Some c → data ≠ "" →
        InstanceWriteToTerminal p sessionId instanceName data w =
          (Return tt,
           record (ObserveAction "InstanceWriteToTerminal") (conn_Write c data w).2)) ∧
  (conns (InstanceWriteToTerminal p sessionId instanceName data w).2 ≠ conns w →
   is_Some (getInstanceTermConn sessionId instanceName w) ∧ data ≠ "") ∧
  (∀ session instance,
     InstanceWriteToTerminal p (types.Id session) (types.Name instance) data
       (InstanceDelete p session instance w).2 =
     (Return tt,
      record (ObserveAction "InstanceWriteToTerminal")
        (InstanceDelete p session instance w).2)).
Proof.
  split; [by rewrite InstanceWriteToTerminal_eq|].
  split.
  { eapply calls_of_record_all.
    - rewrite InstanceWriteToTerminal_eq. cbn [snd]. apply record_as_record_all.
    - destruct (getInstanceTermConn _ _ w); [|done].
      destruct (0 <? String.length data)%nat; [apply conn_Write_trace | done]. }
  split.
  { rewrite InstanceWriteToTerminal_eq. cbn.
    destruct (getInstanceTermConn _ _ w); [|done].
    destruct (String.length data); [done | apply conn_Write_terms]. }
  split.
  { intros [Hnone | ->]; rewrite InstanceWriteToTerminal_eq.
    - by rewrite Hnone.
    - cbn. by destruct (getInstanceTermConn _ _ w). }
  split.
  { intros c Hc Hdata. rewrite InstanceWriteToTerminal_eq, Hc.
    destruct data; [done|]. reflexivity. }
  split.
  { intros Hconns. rewrite InstanceWriteToTerminal_eq in Hconns. cbn in Hconns.
    destruct (getInstanceTermConn _ _ w); [|done].
    split; [by eexists|]. intros ->. by cbn in Hconns. }
  intros session instance.
  rewrite InstanceWriteToTerminal_eq.
  destruct (getInstanceTermConn _ _ (InstanceDelete p session instance w).2)
    as [c|] eqn:Hreg; [|done].
  destruct (0 <? String.length data)%nat; [|done].
  rewrite conn_Write_closed; [done|].
  unfold getInstanceTermConn in Hreg. rewrite InstanceDelete_terms in Hreg.
  by apply InstanceDelete_closes.
Qed.

(** ** Attaching a terminal *)

Lemma record_all_nil (w : World) : record_all [] w = w.
Proof. destruct w. unfold record_all. cbn. by rewrite app_nil_r. Qed.

Lemma sessionWriter_Write_eq (sw : sessionWriter) (p : string) (w : World) :
  sessionWriter_Write sw p w =
  (Return (String.length p, None),
   record (Emit event.INSTANCE_TERMINAL_OUT (sessionId sw) [instanceName sw; p]) w).
Proof. reflexivity. Qed.

Lemma write_all_eq (sw : sessionWriter) (ps : list string) (w : World) :
  write_all (sessionWriter_Write sw) ps w =
  (Return tt,
   record_all
     ((λ p, Emit event.INSTANCE_TERMINAL_OUT (sessionId sw) [instanceName sw; p]) <$> ps)
     w).
Proof.
  revert w. induction ps as [|p ps IH]; intros w.
  - cbn. by rewrite record_all_nil.
  - cbn [write_all]. unfold mbind, M_bind.
    rewrite sessionWriter_Write_eq, IH. by flatten_trace.
Qed.

Lemma register_lookup (sessionId instanceName : string) (conn : net.Conn) (w : World) :
  getInstanceTermConn sessionId instanceName (register sessionId instanceName conn w).2
  = Some conn.
Proof.
  unfold register, getInstanceTermConn. cbn.
  destruct (terms w !! sessionId) as [m|]; cbn.
  - rewrite lookup_insert_eq. cbn. by rewrite lookup_insert_eq.
  - rewrite lookup_insert_eq. cbn. by rewrite lookup_singleton_eq.
Qed.

Lemma io_Copy_eq (sw : sessionWriter) (conn : net.Conn) (w : World) :
  ∃ w', io_Copy sw conn w = (Return tt, w') ∧ terms w' = terms w.
Proof.
  unfold io_Copy, conn_ReadAll. step_M.
  destruct (net.closed (conn_state w conn)); rewrite write_all_eq; by eexists.
Qed.

Lemma InstanceAttachTerminal_registered (p : pwd) (instance : types.Instance)
  (w : World) (c : net.Conn) :
  getInstanceTermConn (types.SessionId instance) (types.Name instance) w = Some c →
  InstanceAttachTerminal p instance w = (Return None, w).
Proof. intros Hc. unfold InstanceAttachTerminal. step_M. by rewrite Hc. Qed.

Lemma InstanceAttachTerminal_success (p : pwd) (instance : types.Instance) (w : World) :
  (InstanceAttachTerminal p instance w).1 = Return None →
  is_Some (getInstanceTermConn (types.SessionId instance) (types.Name instance)
             (InstanceAttachTerminal p instance w).2).
Proof.
  unfold InstanceAttachTerminal. step_M.
  destruct (getInstanceTermConn _ _ w) as [c|] eqn:Hreg; cbn.
  - intros _. rewrite Hreg. by eexists.
  - destruct (docker.CreateAttachConnection _ _) as [conn|err]; cbn; [|done].
    intros _.
    set (w1 := (register (types.SessionId instance) (types.Name instance) conn
                  (record (DockerCreateAttachConnection (types.Name instance)) w)).2).
    destruct (io_Copy_eq {| sessionId := types.Session_Id instance;
                            instanceName := types.Name instance |} conn w1)
      as (w' & Hcopy & Hterms).
    unfold register in w1. cbn in w1. fold w1. rewrite Hcopy. cbn.
    exists conn. unfold getInstanceTermConn. rewrite Hterms.
    apply (register_lookup _ _ conn
             (record (DockerCreateAttachConnection (types.Name instance)) w)).
Qed.

(** C4. When a channel is already registered for (session id, instance
    name), [InstanceAttachTerminal] returns nil and leaves the world
    exactly as it found it: the engine is not asked for a connection,
    nothing is registered, nothing is relayed.  Hence, after an attach that
    returned nil, the key has a channel and a second attach changes
    nothing. *)
Theorem InstanceAttachTerminal_idempotent (p : pwd) (instance : types.Instance)
  (w : World) :
  (∀ c, getInstanceTermConn (types.SessionId instance) (types.Name instance) w = Some c →
        InstanceAttachTerminal p instance w = (Return None, w) ∧
        calls_of (InstanceAttachTerminal p instance) w = []) ∧
  ((InstanceAttachTerminal p instance w).1 = Return None →
   ∃ c, getInstanceTermConn (types.SessionId instance) (types.Name instance)
          (InstanceAttachTerminal p instance w).2 = Some c ∧
        InstanceAttachTerminal p instance (InstanceAttachTerminal p instance w).2 =
          (Return None, (InstanceAttachTerminal p instance w).2) ∧
        calls_of (InstanceAttachTerminal p instance)
          (InstanceAttachTerminal p instance w).2 = []).
Proof.
  assert (∀ w1 c,
            getInstanceTermConn (types.SessionId instance) (types.Name instance) w1
              = Some c →
            InstanceAttachTerminal p instance w1 = (Return None, w1) ∧
            calls_of (InstanceAttachTerminal p instance) w1 = []) as Hnoop.
  { intros w1 c Hc. split; [by eapply InstanceAttachTerminal_registered|].
    unfold calls_of. erewrite InstanceAttachTerminal_registered by done.
    cbn. apply drop_all. }
  split; [apply Hnoop|].
  intros Hok. destruct (InstanceAttachTerminal_success p instance w Hok) as [c Hc].
  exists c. split; [done|]. by eapply Hnoop.
Qed.

(** ** Creating an instance *)

Lemma InstanceNew_calls (fuel : nat) (p : pwd) (session : types.Session)
  (conf : InstanceConfig) (w : World) :
  calls_of (InstanceNew fuel p session conf) w =
  let sid := types.Id session in
  ([Lock sid; Log ("NewInstance - using image: [" +:+ imageName conf +:+ "]")] ++
   match hostname_of fuel session conf, slice_to sid 8 with
   | Return hostname, Return prefix =>
       let opts := InstanceNew_opts session conf hostname prefix in
       let instance := InstanceNew_instance p session conf hostname prefix in
       [ObserveAction "InstanceAllowedImages"; DockerCreateContainer opts] ++
       match (docker.CreateContainer (docker_api p) opts).2 with
       | Some _ => []
       | None =>
           [GoInstanceAttachTerminal instance; StorageInstanceCreate sid instance] ++
           match storage.InstanceCreate (storage_api p) sid instance with
           | Some _ => []
           | None =>
               [Emit event.INSTANCE_NEW sid
                  [types.Name instance; types.IP instance; types.Hostname instance];
                SetGauges]
           end
       end
   | _, _ => []
   end ++ [Unlock sid; ObserveAction "InstanceNew"])%list.
Proof.
  eapply calls_of_record_all; [|reflexivity].
  rewrite InstanceNew_eq. cbn zeta.
  destruct (hostname_of fuel session conf) as [hostname|msg|]; [|reflexivity..].
  destruct (slice_to (types.Id session) 8) as [prefix|msg|]; [|reflexivity..].
  destruct (docker.CreateContainer _ _).2; [reflexivity|].
  by destruct (storage.InstanceCreate _ _ _).
Qed.

(** A request to the engine found among the calls of [InstanceNew] is the
    one built from the host name and the prefix the call arrived at. *)
Lemma InstanceNew_create_call_inv (fuel : nat) (p : pwd) (session : types.Session)
  (conf : InstanceConfig) (w : World) (opts : docker.CreateContainerOpts) :
  DockerCreateContainer opts ∈ calls_of (InstanceNew fuel p session conf) w →
  ∃ hostname prefix,
    hostname_of fuel session conf = Return hostname ∧
    slice_to (types.Id session) 8 = Return prefix ∧
    opts = InstanceNew_opts session conf hostname prefix.
Proof.
  rewrite InstanceNew_calls. cbn zeta.
  destruct (hostname_of fuel session conf) as [hostname|msg|];
    [|cbn; intros Hin; exfalso; revert Hin; not_in_calls..].
  destruct (slice_to (types.Id session) 8) as [prefix|msg|];
    [|cbn; intros Hin; exfalso; revert Hin; not_in_calls..].
  intros Hin. exists hostname, prefix. split; [done|]. split; [done|].
  destruct (docker.CreateContainer _ _).2;
    [|destruct (storage.InstanceCreate _ _ _)]; cbn in Hin;
    repeat (apply elem_of_cons in Hin as [Hin|Hin]; [try discriminate Hin|]);
    try (by apply elem_of_nil in Hin); by injection Hin.
Qed.

Lemma InstanceNew_opts_fields (session : types.Session) (conf : InstanceConfig)
  (hostname prefix : string) :
  let opts := InstanceNew_opts session conf hostname prefix in
  docker.Image opts = imageName conf ∧
  docker.Hostname opts = hostname ∧
  docker.ContainerName opts = prefix +:+ "_" +:+ hostname ∧
  (docker.Privileged opts = true ↔
   imageName conf ∈ [GetDindImageName; "franela/dind:overlay2-dev"; "franela/ucp:2.4.1"]).
Proof.
  cbn zeta. repeat split; try reflexivity;
    unfold InstanceNew_opts; cbn [docker.Privileged setPrivileged newOpts];
    apply privileged_loop_spec.
Qed.

(** What a call that returns has done, by the answers of the engine and of
    the storage. *)
Lemma InstanceNew_Return_inv (fuel : nat) (p : pwd) (session : types.Session)
  (conf : InstanceConfig) (w w' : World) (session' : types.Session)
  (result : option types.Instance * option Go.error) :
  InstanceNew fuel p session conf w = (Return (session', result), w') →
  ∃ hostname prefix,
    hostname_of fuel session conf = Return hostname ∧
    slice_to (types.Id session) 8 = Return prefix ∧
    let opts := InstanceNew_opts session conf hostname prefix in
    let instance := InstanceNew_instance p session conf hostname prefix in
    match (docker.CreateContainer (docker_api p) opts).2 with
    | Some e => session' = session ∧ result = (None, Some e)
    | None =>
        session' = addInstance instance session ∧
        match storage.InstanceCreate (storage_api p) (types.Id session) instance with
        | Some e => result = (None, Some e)
        | None => result = (Some instance, None)
        end
    end.
Proof.
  rewrite InstanceNew_eq. cbn zeta.
  destruct (hostname_of fuel session conf) as [hostname|msg|]; [|done..].
  destruct (slice_to (types.Id session) 8) as [prefix|msg|]; [|done..].
  intros Hrun. exists hostname, prefix. split; [done|]. split; [done|].
  destruct (docker.CreateContainer _ _).2; [by inversion Hrun|].
  destruct (storage.InstanceCreate _ _ _); by inversion Hrun.
Qed.

Lemma InstanceNew_create_called (fuel : nat) (p : pwd) (session : types.Session)
  (conf : InstanceConfig) (w : World) (hostname prefix : string) :
  hostname_of fuel session conf = Return hostname →
  slice_to (types.Id session) 8 = Return prefix →
  DockerCreateContainer (InstanceNew_opts session conf hostname prefix) ∈
    calls_of (InstanceNew fuel p session conf) w.
Proof.
  intros Hh Hp. rewrite InstanceNew_calls. cbn zeta. rewrite Hh, Hp. cbn.
  do 3 apply list_elem_of_further. apply list_elem_of_here.
Qed.

Lemma InstanceNew_Return_total (fuel : nat) (p : pwd) (session : types.Session)
  (conf : InstanceConfig) (w : World) (hostname prefix : string) :
  hostname_of fuel session conf = Return hostname →
  slice_to (types.Id session) 8 = Return prefix →
  ∃ session' result w',
    InstanceNew fuel p session conf w = (Return (session', result), w').
Proof.
  intros Hh Hp. rewrite InstanceNew_eq. cbn zeta. rewrite Hh, Hp.
  destruct (docker.CreateContainer _ _).2; [by eexists _, _, _|].
  destruct (storage.InstanceCreate _ _ _); by eexists _, _, _.
Qed.

Lemma hostname_of_long (fuel : nat) (session : types.Session) (conf : InstanceConfig) :
  (8 ≤ String.length (types.Id session))%nat →
  (Z.of_nat (size (types.Instances session)) < 2 ^ 63 - 1)%Z →
  (size (types.Instances session) < fuel)%nat →
  ∃ hostname, hostname_of fuel session conf = Return hostname.
Proof.
  intros Hlen Hsize Hfuel. unfold hostname_of.
  destruct (String.eqb (Hostname conf) ""); [|by eexists].
  destruct (nodeName_loop_spec session fuel 1) as (N & _ & Hrun & _);
    [done | done | lia | intros j Hj; lia | lia |].
  by eexists.
Qed.

Lemma hostname_of_short (fuel : nat) (session : types.Session) (conf : InstanceConfig) :
  (String.length (types.Id session) < 8)%nat →
  (0 < fuel)%nat →
  hostname_of fuel session conf = Panic "slice bounds out of range" ∨
  ∃ hostname, hostname_of fuel session conf = Return hostname.
Proof.
  intros Hlen Hfuel. unfold hostname_of.
  destruct (String.eqb (Hostname conf) ""); [left | right; by eexists].
  destruct fuel as [|fuel]; [lia|]. cbn [nodeName_loop].
  by rewrite checkHostnameExists_short.
Qed.

(** C1. Whenever [InstanceNew] creates an instance (the one it returns, or
    the one it has put into the session when it returns the storage's
    error), the image of that instance is the requested image, or the
    configured default when none was requested, and its [IsDockerHost] flag
    is true exactly when that image is one of those [InstanceAllowedImages]
    returns; the engine was asked for a container with the same
    privilege. *)
Theorem InstanceNew_IsDockerHost (fuel : nat) (p : pwd) (session : types.Session)
  (conf : InstanceConfig) (w w' : World) (session' : types.Session)
  (result : option types.Instance * option Go.error)
  (allowed : list string) (w0 : World) (instance : types.Instance) :
  InstanceNew fuel p session conf w = (Return (session', result), w') →
  (InstanceAllowedImages p w0).1 = Return allowed →
  result.1 = Some instance ∨
    (types.Instances session' !! types.Name instance = Some instance ∧
     types.Instances session !! types.Name instance ≠ Some instance) →
  types.Image instance = imageName conf ∧
  (types.IsDockerHost instance = true ↔ imageName conf ∈ allowed) ∧
  (types.IsDockerHost instance = false ↔ imageName conf ∉ allowed) ∧
  ∃ opts, DockerCreateContainer opts ∈ calls_of (InstanceNew fuel p session conf) w ∧
          docker.Image opts = types.Image instance ∧
          docker.Privileged opts = types.IsDockerHost instance.
Proof.
  intros Hrun Hallowed Hcreated.
  rewrite InstanceAllowedImages_eq in Hallowed. cbn in Hallowed.
  injection Hallowed as <-.
  destruct (InstanceNew_Return_inv _ _ _ _ _ _ _ _ Hrun)
    as (hostname & prefix & Hh & Hp & Hcases).
  cbn zeta in Hcases.
  assert (instance = InstanceNew_instance p session conf hostname prefix) as ->.
  { destruct (docker.CreateContainer _ _).2.
    - destruct Hcases as [-> ->]. cbn in Hcreated.
      destruct Hcreated as [?|[? ?]]; done.
    - destruct Hcases as [-> Hres].
      destruct Hcreated as [Hret|[Hnew Hold]].
      + destruct (storage.InstanceCreate _ _ _); subst result; cbn in Hret; congruence.
      + unfold addInstance in Hnew. cbn [types.Instances] in Hnew.
        destruct (decide (types.Name (InstanceNew_instance p session conf hostname prefix)
                          = types.Name instance)) as [Heq|Hne].
        * rewrite Heq, lookup_insert_eq in Hnew. congruence.
        * rewrite lookup_insert_ne in Hnew by done. contradiction. }
  destruct (InstanceNew_opts_fields session conf hostname prefix)
    as (Himg & _ & _ & Hpriv).
  split; [exact Himg|]. split; [exact Hpriv|]. split.
  - change (types.IsDockerHost (InstanceNew_instance p session conf hostname prefix))
      with (docker.Privileged (InstanceNew_opts session conf hostname prefix)).
    rewrite <- Hpriv. by destruct (docker.Privileged _).
  - exists (InstanceNew_opts session conf hostname prefix).
    split; [by apply InstanceNew_create_called | done].
Qed.

(** C9. When the engine has created the container ([CreateContainer]
    answered with an address and no error) and the storage refuses to
    persist the instance built from it, [InstanceNew] returns no instance
    and the storage's error, the session it leaves behind holds the new
    instance under its name, the goroutine attaching the terminal was
    started, and neither the creation event nor the gauge update has taken
    place. *)
Theorem InstanceNew_persistence_failure (fuel : nat) (p : pwd)
  (session : types.Session) (conf : InstanceConfig) (w : World)
  (opts : docker.CreateContainerOpts) (ip : string) (instance : types.Instance)
  (e : Go.error) :
  DockerCreateContainer opts ∈ calls_of (InstanceNew fuel p session conf) w →
  docker.CreateContainer (docker_api p) opts = (ip, None) →
  instance = newInstance session conf opts ip (docker.Hostname opts)
               (docker.ContainerName opts) →
  storage.InstanceCreate (storage_api p) (types.Id session) instance = Some e →
  (InstanceNew fuel p session conf w).1 =
    Return (addInstance instance session, (None, Some e)) ∧
  types.Instances (addInstance instance session) !! types.Name instance
    = Some instance ∧
  GoInstanceAttachTerminal instance ∈ calls_of (InstanceNew fuel p session conf) w ∧
  (∀ kind sid args,
     Emit kind sid args ∉ calls_of (InstanceNew fuel p session conf) w) ∧
  SetGauges ∉ calls_of (InstanceNew fuel p session conf) w.
Proof.
  intros Hin Hcreate -> Hstore.
  destruct (InstanceNew_create_call_inv _ _ _ _ _ _ Hin)
    as (hostname & prefix & Hh & Hp & ->).
  change (docker.Hostname (InstanceNew_opts session conf hostname prefix))
    with hostname in *.
  change (docker.ContainerName (InstanceNew_opts session conf hostname prefix))
    with (prefix +:+ "_" +:+ hostname) in *.
  assert (newInstance session conf (InstanceNew_opts session conf hostname prefix) ip
            hostname (prefix +:+ "_" +:+ hostname)
          = InstanceNew_instance p session conf hostname prefix) as Hinst
    by (unfold InstanceNew_instance; cbn zeta; by rewrite Hcreate).
  rewrite Hinst in *. clear Hin.
  split.
  { rewrite InstanceNew_eq. cbn zeta. rewrite Hh, Hp, Hcreate. cbn [snd].
    by rewrite Hstore. }
  split; [cbn; by rewrite lookup_insert_eq|].
  rewrite InstanceNew_calls. cbn zeta. rewrite Hh, Hp, Hcreate. cbn [snd].
  rewrite Hstore. cbn.
  split; [do 4 apply list_elem_of_further; apply list_elem_of_here|].
  split; [intros kind sid args; not_in_calls | not_in_calls].
Qed.

(** C3. Called without a host name on a session whose id has at least
    eight characters, [InstanceNew] allocates node{N} for the smallest
    N >= 1 such that no instance of the session has the container name
    {first 8 characters of the session id}_node{N}: the loop stops there,
    the call returns, the engine is asked for a container with that host
    name and that container name, and an instance that is returned carries
    them.  (The session has fewer than 2^63 - 1 instances, as the length
    of a Go map always does, so that the counter does not wrap around, and
    the fuel exceeds their number.) *)
Theorem InstanceNew_allocates_lowest_node (fuel : nat) (p : pwd)
  (session : types.Session) (conf : InstanceConfig) (w : World) :
  Hostname conf = "" →
  (8 ≤ String.length (types.Id session))%nat →
  (Z.of_nat (size (types.Instances session)) < 2 ^ 63 - 1)%Z →
  (size (types.Instances session) < fuel)%nat →
  ∃ N : Z,
    (1 ≤ N)%Z ∧
    ¬ has_container session
        (String.substring 0 8 (types.Id session) +:+ "_" +:+ "node" +:+ pretty N) ∧
    (∀ j, (1 ≤ j < N)%Z →
          has_container session
            (String.substring 0 8 (types.Id session) +:+ "_" +:+ "node" +:+ pretty j)) ∧
    hostname_of fuel session conf = Return ("node" +:+ pretty N) ∧
    ∃ session' result w',
      InstanceNew fuel p session conf w = (Return (session', result), w') ∧
      (∃ opts,
         DockerCreateContainer opts ∈ calls_of (InstanceNew fuel p session conf) w ∧
         docker.Hostname opts = "node" +:+ pretty N ∧
         docker.ContainerName opts =
           String.substring 0 8 (types.Id session) +:+ "_" +:+ "node" +:+ pretty N) ∧
      (∀ instance, result.1 = Some instance →
         types.Hostname instance = "node" +:+ pretty N ∧
         types.Name instance =
           String.substring 0 8 (types.Id session) +:+ "_" +:+ "node" +:+ pretty N).
Proof.
  intros Hempty Hlen Hsize Hfuel.
  destruct (nodeName_loop_spec session fuel 1) as (N & HN & Hloop & Hfree & Hused);
    [done | done | lia | intros j Hj; lia | lia |].
  assert (hostname_of fuel session conf = Return ("node" +:+ pretty N)) as Hh
    by (unfold hostname_of; by rewrite Hempty).
  pose proof (slice_to_long (types.Id session) 8 Hlen) as Hp.
  exists N. split; [done|]. split; [done|]. split; [done|]. split; [done|].
  destruct (InstanceNew_Return_total fuel p session conf w _ _ Hh Hp)
    as (session' & result & w' & Hrun).
  exists session', result, w'. split; [done|]. split.
  - eexists. split; [by apply InstanceNew_create_called | done].
  - intros instance Hret.
    destruct (InstanceNew_Return_inv _ _ _ _ _ _ _ _ Hrun)
      as (hostname & prefix & Hh' & Hp' & Hcases).
    rewrite Hh in Hh'. rewrite Hp in Hp'.
    injection Hh' as <-. injection Hp' as <-. cbn zeta in Hcases.
    destruct (docker.CreateContainer _ _).2.
    + destruct Hcases as [_ ->]. done.
    + destruct Hcases as [_ Hres].
      destruct (storage.InstanceCreate _ _ _); subst result; [done|].
      cbn in Hret. by injection Hret as <-.
Qed.

(** C10. Both [checkHostnameExists] and [InstanceNew] slice the session id
    at 8.  On a session whose id is shorter they panic with the slice out
    of range; on a session whose id has at least eight characters
    [checkHostnameExists] returns and so does [InstanceNew].  (As for C3,
    the fuel exceeds the number of instances, which is below 2^63 - 1.) *)
Theorem session_id_prefix_precondition (fuel : nat) (p : pwd)
  (session : types.Session) (conf : InstanceConfig) (w : World) (hostname : string) :
  (Z.of_nat (size (types.Instances session)) < 2 ^ 63 - 1)%Z →
  (size (types.Instances session) < fuel)%nat →
  ((String.length (types.Id session) < 8)%nat →
   checkHostnameExists session hostname = Panic "slice bounds out of range" ∧
   (InstanceNew fuel p session conf w).1 = Panic "slice bounds out of range") ∧
  ((8 ≤ String.length (types.Id session))%nat →
   (∃ b, checkHostnameExists session hostname = Return b) ∧
   (∃ r, (InstanceNew fuel p session conf w).1 = Return r)).
Proof.
  intros Hsize Hfuel. split; intros Hlen.
  - split; [by apply checkHostnameExists_short|].
    rewrite InstanceNew_eq. cbn zeta.
    destruct (hostname_of_short fuel session conf Hlen) as [->|[h ->]];
      [lia | done |].
    by rewrite slice_to_short.
  - split.
    + destruct (checkHostnameExists_long session hostname Hlen) as (b & Hb & _).
      by exists b.
    + destruct (hostname_of_long fuel session conf Hlen Hsize Hfuel) as [h Hh].
      destruct (InstanceNew_Return_total fuel p session conf w _ _ Hh
                  (slice_to_long _ _ Hlen)) as (session' & result & w' & ->).
      by eexists.
Qed.

(** ** Uploading a file *)

(** C8, where the code departs from it.  When the working-directory command
    exits with a code that is not positive, without an error, and its
    output has no colon, [strings.Split] gives one piece and the index 1 is
    out of range: [getInstanceCWD] panics, and so does
    [InstanceUploadFromReader] for a destination that is not absolute.
    Neither returns an error, and nothing is copied. *)
Theorem InstanceUploadFromReader_unparsable_cwd_panics (p : pwd)
  (instance : types.Instance) (fileName dest reader b : string) (c : Z) (w : World) :
  docker.ExecAttach (docker_api p) (types.Name instance)
    ["bash"; "-c"; "pwdx $(</var/run/cwd)"] = (b, c, None) →
  (c ≤ 0)%Z →
  Go.Contains b ":" = false →
  Go.IsAbs dest = false →
  (getInstanceCWD p instance w).1 = Panic "index out of range" ∧
  (InstanceUploadFromReader p instance fileName dest reader w).1
    = Panic "index out of range" ∧
  calls_of (InstanceUploadFromReader p instance fileName dest reader) w =
    [DockerExecAttach (types.Name instance) ["bash"; "-c"; "pwdx $(</var/run/cwd)"];
     ObserveAction "InstanceUploadFromReader"].
Proof.
  intros Hexec Hc Hcolon Habs.
  assert (getInstanceCWD p instance w =
          (Panic "index out of range",
           record (DockerExecAttach (types.Name instance)
                     ["bash"; "-c"; "pwdx $(</var/run/cwd)"]) w)) as Hcwd.
  { unfold getInstanceCWD. step_M. rewrite Hexec.
    destruct (Z.ltb_spec 0 c) as [?|_]; [lia|]. cbn.
    by rewrite (Split_no_separator b ":" Hcolon). }
  split; [by rewrite Hcwd|].
  assert (InstanceUploadFromReader p instance fileName dest reader w =
          (Panic "index out of range",
           record_all [DockerExecAttach (types.Name instance)
                         ["bash"; "-c"; "pwdx $(</var/run/cwd)"];
                       ObserveAction "InstanceUploadFromReader"] w)) as Hup.
  { unfold InstanceUploadFromReader. rewrite Habs.
    unfold defer, mbind, M_bind. rewrite Hcwd. cbn. by flatten_trace. }
  split; [by rewrite Hup|].
  eapply calls_of_record_all; [by rewrite Hup | reflexivity].
Qed.

(** X22. With a positive exit code [getInstanceCWD] returns an error naming the
    code, and the upload returns it without copying. *)
Lemma InstanceUploadFromReader_exit_code (p : pwd) (instance : types.Instance)
  (fileName dest reader b : string) (c : Z) (err : option Go.error) (w : World) :
  docker.ExecAttach (docker_api p) (types.Name instance)
    ["bash"; "-c"; "pwdx $(</var/run/cwd)"] = (b, c, err) →
  (0 < c)%Z →
  Go.IsAbs dest = false →
  (InstanceUploadFromReader p instance fileName dest reader w).1 =
    Return (Some ("Error " +:+ pretty c +:+ " trying to get CWD")) ∧
  calls_of (InstanceUploadFromReader p instance fileName dest reader) w =
    [DockerExecAttach (types.Name instance) ["bash"; "-c"; "pwdx $(</var/run/cwd)"];
     Log b; ObserveAction "InstanceUploadFromReader"].
Proof.
  intros Hexec Hc Habs.
  assert (InstanceUploadFromReader p instance fileName dest reader w =
          (Return (Some ("Error " +:+ pretty c +:+ " trying to get CWD")),
           record_all [DockerExecAttach (types.Name instance)
                         ["bash"; "-c"; "pwdx $(</var/run/cwd)"];
                       Log b; ObserveAction "InstanceUploadFromReader"] w)) as Hup.
  { unfold InstanceUploadFromReader, getInstanceCWD. rewrite Habs. step_M.
    rewrite Hexec. destruct (Z.ltb_spec 0 c) as [_|?]; [|lia]. cbn.
    by flatten_trace. }
  split; [by rewrite Hup|].
  eapply calls_of_record_all; [by rewrite Hup | reflexivity].
Qed.

(** ** More on creating an instance *)

Lemma world_by_calls {A : Type} (m : M A) (w : World) (cs : list Call) :
  (m w).2 = record_all cs w → (m w).2 = record_all (calls_of m w) w.
Proof.
  intros Hrun. by rewrite (calls_of_record_all m w w cs Hrun eq_refl).
Qed.

Lemma InstanceNew_world (fuel : nat) (p : pwd) (session : types.Session)
  (conf : InstanceConfig) (w : World) :
  (InstanceNew fuel p session conf w).2 =
  record_all (calls_of (InstanceNew fuel p session conf) w) w.
Proof.
  assert (∃ cs, (InstanceNew fuel p session conf w).2 = record_all cs w) as [cs Hcs].
  { rewrite InstanceNew_eq. cbn zeta.
    destruct (hostname_of _ _ _); [|by eexists..].
    destruct (slice_to _ _); [|by eexists..].
    destruct (docker.CreateContainer _ _).2; [by eexists|].
    destruct (storage.InstanceCreate _ _ _); by eexists. }
  by eapply world_by_calls.
Qed.

(** X1. When the engine refuses to create the container, [InstanceNew] returns
    the engine's error as it is and the session as it was; after the
    request to the engine it only releases the lock: no goroutine, no
    storage call, no event, no gauge update. *)
Theorem InstanceNew_engine_failure (fuel : nat) (p : pwd) (session : types.Session)
  (conf : InstanceConfig) (w : World) (opts : docker.CreateContainerOpts)
  (ip : string) (e : Go.error) :
  DockerCreateContainer opts ∈ calls_of (InstanceNew fuel p session conf) w →
  docker.CreateContainer (docker_api p) opts = (ip, Some e) →
  (InstanceNew fuel p session conf w).1 = Return (session, (None, Some e)) ∧
  calls_of (InstanceNew fuel p session conf) w =
    [Lock (types.Id session);
     Log ("NewInstance - using image: [" +:+ imageName conf +:+ "]");
     ObserveAction "InstanceAllowedImages";
     DockerCreateContainer opts;
     Unlock (types.Id session);
     ObserveAction "InstanceNew"].
Proof.
  intros Hin Hcreate.
  destruct (InstanceNew_create_call_inv _ _ _ _ _ _ Hin)
    as (hostname & prefix & Hh & Hp & ->).
  split.
  - rewrite InstanceNew_eq. cbn zeta. by rewrite Hh, Hp, Hcreate.
  - rewrite InstanceNew_calls. cbn zeta. by rewrite Hh, Hp, Hcreate.
Qed.

(** X2. When the engine creates the container and the storage persists the
    instance, [InstanceNew] returns the instance built from the engine's
    address and leaves it in the session under its name.  In this order it
    has started the goroutine that attaches the terminal, persisted the
    instance, emitted the creation event with the name, the address and
    the host name of the instance, and updated the gauges, before it
    released the lock. *)
Theorem InstanceNew_success (fuel : nat) (p : pwd) (session : types.Session)
  (conf : InstanceConfig) (w : World) (opts : docker.CreateContainerOpts)
  (ip : string) (instance : types.Instance) :
  DockerCreateContainer opts ∈ calls_of (InstanceNew fuel p session conf) w →
  docker.CreateContainer (docker_api p) opts = (ip, None) →
  instance = newInstance session conf opts ip (docker.Hostname opts)
               (docker.ContainerName opts) →
  storage.InstanceCreate (storage_api p) (types.Id session) instance = None →
  (InstanceNew fuel p session conf w).1 =
    Return (addInstance instance session, (Some instance, None)) ∧
  types.Instances (addInstance instance session) !! types.Name instance
    = Some instance ∧
  calls_of (InstanceNew fuel p session conf) w =
    [Lock (types.Id session);
     Log ("NewInstance - using image: [" +:+ imageName conf +:+ "]");
     ObserveAction "InstanceAllowedImages";
     DockerCreateContainer opts;
     GoInstanceAttachTerminal instance;
     StorageInstanceCreate (types.Id session) instance;
     Emit event.INSTANCE_NEW (types.Id session)
       [docker.ContainerName opts; ip; docker.Hostname opts];
     SetGauges;
     Unlock (types.Id session);
     ObserveAction "InstanceNew"].
Proof.
  intros Hin Hcreate -> Hstore.
  destruct (InstanceNew_create_call_inv _ _ _ _ _ _ Hin)
    as (hostname & prefix & Hh & Hp & ->).
  change (docker.Hostname (InstanceNew_opts session conf hostname prefix))
    with hostname in *.
  change (docker.ContainerName (InstanceNew_opts session conf hostname prefix))
    with (prefix +:+ "_" +:+ hostname) in *.
  assert (newInstance session conf (InstanceNew_opts session conf hostname prefix) ip
            hostname (prefix +:+ "_" +:+ hostname)
          = InstanceNew_instance p session conf hostname prefix) as Hinst
    by (unfold InstanceNew_instance; cbn zeta; by rewrite Hcreate).
  rewrite Hinst in *. clear Hin.
  split.
  { rewrite InstanceNew_eq. cbn zeta. rewrite Hh, Hp, Hcreate. cbn [snd].
    by rewrite Hstore. }
  split; [cbn; by rewrite lookup_insert_eq|].
  rewrite InstanceNew_calls. cbn zeta. rewrite Hh, Hp, Hcreate. cbn [snd].
  rewrite Hstore. rewrite <- Hinst. reflexivity.
Qed.

(** X3. However [InstanceNew] ends, returning, panicking or cut short by the
    fuel, it has taken the session lock first and released it last, once
    each, before the deferred latency observation. *)
Theorem InstanceNew_releases_lock (fuel : nat) (p : pwd) (session : types.Session)
  (conf : InstanceConfig) (w : World) :
  ∃ middle,
    calls_of (InstanceNew fuel p session conf) w =
      (Lock (types.Id session) :: middle ++
       [Unlock (types.Id session); ObserveAction "InstanceNew"])%list ∧
    (∀ s, Lock s ∉ middle) ∧ (∀ s, Unlock s ∉ middle).
Proof.
  rewrite InstanceNew_calls. cbn zeta.
  destruct (hostname_of fuel session conf) as [hostname|msg|];
    [|eexists [_]; split; [reflexivity|]; split; intros s; not_in_calls..].
  destruct (slice_to (types.Id session) 8) as [prefix|msg|];
    [|eexists [_]; split; [reflexivity|]; split; intros s; not_in_calls..].
  destruct (docker.CreateContainer _ _).2;
    [eexists [_; _; _]
    |destruct (storage.InstanceCreate _ _ _);
     [eexists [_; _; _; _; _] | eexists [_; _; _; _; _; _; _]]];
    (split; [cbn; reflexivity|]; split; intros s; not_in_calls).
Qed.

(** X4. [InstanceNew] itself never touches the registry of terminals nor any
    connection: attaching is left to the goroutine it starts. *)
Theorem InstanceNew_leaves_registry (fuel : nat) (p : pwd) (session : types.Session)
  (conf : InstanceConfig) (w : World) :
  terms (InstanceNew fuel p session conf w).2 = terms w ∧
  conns (InstanceNew fuel p session conf w).2 = conns w.
Proof. by rewrite InstanceNew_world. Qed.
Lemma nodeName_loop_free (fuel : nat) (session : types.Session) (i : Z)
  (hostname : string) :
  nodeName_loop fuel session i = Return hostname →
  checkHostnameExists session hostname = Return false.
Proof.
  revert i. induction fuel as [|fuel IH]; intros i; [done|].
  cbn [nodeName_loop].
  destruct (checkHostnameExists session ("node" +:+ pretty i)) as [[|]|msg|] eqn:Hc;
    [apply IH | | done..].
  intros Hret. by injection Hret as <-.
Qed.

Lemma auto_hostname_free (fuel : nat) (session : types.Session)
  (conf : InstanceConfig) (hostname prefix : string) :
  Hostname conf = "" →
  hostname_of fuel session conf = Return hostname →
  slice_to (types.Id session) 8 = Return prefix →
  ¬ has_container session (prefix +:+ "_" +:+ hostname).
Proof.
  intros Hempty Hh Hp. unfold hostname_of in Hh. rewrite Hempty in Hh. cbn in Hh.
  apply nodeName_loop_free in Hh. unfold checkHostnameExists in Hh.
  rewrite Hp in Hh. injection Hh as Hh.
  intros (k & i & Hk & Hn).
  assert (exists_loop (prefix +:+ "_" +:+ hostname)
            (map_to_list (types.Instances session)) false = true) as Ht; [|congruence].
  apply exists_loop_spec. exists k, i. split; [|done].
  by apply elem_of_map_to_list.
Qed.

(** X5. [InstanceNew] keeps the identity and the address of the session, never
    removes an instance from it, and keeps every instance stored under its
    own name if they were so before. *)
Theorem InstanceNew_keeps_session (fuel : nat) (p : pwd) (session : types.Session)
  (conf : InstanceConfig) (w w' : World) (session' : types.Session)
  (result : option types.Instance * option Go.error) :
  InstanceNew fuel p session conf w = (Return (session', result), w') →
  types.Id session' = types.Id session ∧
  types.PwdIpAddress session' = types.PwdIpAddress session ∧
  (∀ k, is_Some (types.Instances session !! k) →
        is_Some (types.Instances session' !! k)) ∧
  (keyed_by_name session → keyed_by_name session').
Proof.
  intros Hrun.
  destruct (InstanceNew_Return_inv _ _ _ _ _ _ _ _ Hrun)
    as (hostname & prefix & _ & _ & Hcases).
  cbn zeta in Hcases.
  destruct (docker.CreateContainer _ _).2; destruct Hcases as [-> _]; [done|].
  split; [done|]. split; [done|]. split.
  - intros k Hk. cbn. rewrite lookup_insert. by case_decide.
  - intros Hkeyed k i. cbn. rewrite lookup_insert. case_decide as Hk.
    + intros [= <-]. exact Hk.
    + apply Hkeyed.
Qed.

(** X6. Called without a host name on a session that stores every instance
    under its own name, [InstanceNew] overwrites nothing: every instance of
    the session is still there, and when an instance is returned the
    session has exactly one instance more. *)
Theorem InstanceNew_auto_keeps_instances (fuel : nat) (p : pwd)
  (session : types.Session) (conf : InstanceConfig) (w w' : World)
  (session' : types.Session) (result : option types.Instance * option Go.error) :
  Hostname conf = "" →
  keyed_by_name session →
  InstanceNew fuel p session conf w = (Return (session', result), w') →
  types.Instances session ⊆ types.Instances session' ∧
  (is_Some result.1 →
   size (types.Instances session') = S (size (types.Instances session))).
Proof.
  intros Hempty Hkeyed Hrun.
  destruct (InstanceNew_Return_inv _ _ _ _ _ _ _ _ Hrun)
    as (hostname & prefix & Hh & Hp & Hcases).
  cbn zeta in Hcases.
  assert (types.Instances session !! (prefix +:+ "_" +:+ hostname) = None) as Hfree.
  { destruct (types.Instances session !! (prefix +:+ "_" +:+ hostname))
      as [i|] eqn:Hi; [|done].
    exfalso. apply (auto_hostname_free fuel session conf hostname prefix); [done..|].
    exists (prefix +:+ "_" +:+ hostname), i. split; [done|]. by apply Hkeyed. }
  destruct (docker.CreateContainer _ _).2.
  - destruct Hcases as [-> ->]. split; [done|]. by intros [? ?].
  - destruct Hcases as [-> _]. cbn. split.
    + by apply insert_subseteq.
    + intros _. by apply map_size_insert_None.
Qed.

(** X7. A host name that is given is taken as it is, whatever the session
    holds and without running the scan (any fuel will do): on a session
    whose id has at least eight characters the call returns, the engine is
    asked for a container of that host name, and an instance that is
    returned sits in the session under the container name, in place of any
    instance that was stored there. *)
Theorem InstanceNew_explicit_hostname (fuel : nat) (p : pwd)
  (session : types.Session) (conf : InstanceConfig) (w : World) :
  Hostname conf ≠ "" →
  (8 ≤ String.length (types.Id session))%nat →
  ∃ session' result w',
    InstanceNew fuel p session conf w = (Return (session', result), w') ∧
    (∃ opts,
       DockerCreateContainer opts ∈ calls_of (InstanceNew fuel p session conf) w ∧
       docker.Hostname opts = Hostname conf ∧
       docker.ContainerName opts =
         String.substring 0 8 (types.Id session) +:+ "_" +:+ Hostname conf) ∧
    (∀ instance, result.1 = Some instance →
       types.Hostname instance = Hostname conf ∧
       types.Instances session' !!
         (String.substring 0 8 (types.Id session) +:+ "_" +:+ Hostname conf)
       = Some instance).
Proof.
  intros Hgiven Hlen.
  assert (hostname_of fuel session conf = Return (Hostname conf)) as Hh.
  { unfold hostname_of. apply String.eqb_neq in Hgiven. by rewrite Hgiven. }
  pose proof (slice_to_long (types.Id session) 8 Hlen) as Hp.
  destruct (InstanceNew_Return_total fuel p session conf w _ _ Hh Hp)
    as (session' & result & w' & Hrun).
  exists session', result, w'. split; [done|]. split.
  - eexists. split; [by apply InstanceNew_create_called | done].
  - intros instance Hret.
    destruct (InstanceNew_Return_inv _ _ _ _ _ _ _ _ Hrun)
      as (hostname & prefix & Hh' & Hp' & Hcases).
    rewrite Hh in Hh'. rewrite Hp in Hp'.
    injection Hh' as <-. injection Hp' as <-. cbn zeta in Hcases.
    destruct (docker.CreateContainer _ _).2.
    + destruct Hcases as [_ ->]. done.
    + destruct Hcases as [-> Hres].
      destruct (storage.InstanceCreate _ _ _); subst result; [done|].
      cbn in Hret. injection Hret as <-. split; [done|].
      cbn. by rewrite lookup_insert_eq.
Qed.

(** X8. An instance created without an image being requested runs the
    configured default image and is always a docker host. *)
Theorem InstanceNew_default_image_privileged (fuel : nat) (p : pwd)
  (session : types.Session) (conf : InstanceConfig) (w w' : World)
  (session' : types.Session) (instance : types.Instance) (err : option Go.error) :
  ImageName conf = "" →
  InstanceNew fuel p session conf w = (Return (session', (Some instance, err)), w') →
  types.Image instance = GetDindImageName ∧ types.IsDockerHost instance = true.
Proof.
  intros Hempty Hrun.
  destruct (InstanceNew_Return_inv _ _ _ _ _ _ _ _ Hrun)
    as (hostname & prefix & _ & _ & Hcases).
  cbn zeta in Hcases.
  assert (instance = InstanceNew_instance p session conf hostname prefix) as ->.
  { destruct (docker.CreateContainer _ _).2; [by destruct Hcases as [_ ?]|].
    destruct Hcases as [_ Hres].
    destruct (storage.InstanceCreate _ _ _); congruence. }
  destruct (InstanceNew_opts_fields session conf hostname prefix)
    as (Himg & _ & _ & Hpriv).
  assert (imageName conf = GetDindImageName) as Hdefault
    by (unfold imageName; by rewrite Hempty).
  split.
  - etrans; [exact Himg | exact Hdefault].
  - apply Hpriv. rewrite Hdefault. apply list_elem_of_here.
Qed.

(** X9. The identity of an instance [InstanceNew] returns is fixed by the
    session and the host name: its name is the first eight characters of
    its session id, an underscore and its host name; it refers to the
    session it was created in; the engine was asked for a container of
    that very name, in that session, and the address of the instance is
    the one the engine answered; alias and TLS material are those of the
    request. *)
Theorem InstanceNew_instance_identity (fuel : nat) (p : pwd)
  (session : types.Session) (conf : InstanceConfig) (w w' : World)
  (session' : types.Session) (instance : types.Instance) (err : option Go.error) :
  InstanceNew fuel p session conf w = (Return (session', (Some instance, err)), w') →
  types.SessionId instance = types.Id session ∧
  types.Session_Id instance = types.Id session ∧
  types.Name instance =
    String.substring 0 8 (types.SessionId instance) +:+ "_" +:+
    types.Hostname instance ∧
  (types.Alias instance, types.Cert instance, types.Key instance,
   types.ServerCert instance, types.ServerKey instance, types.CACert instance) =
  (Alias conf, Cert conf, Key conf, ServerCert conf, ServerKey conf, CACert conf) ∧
  ∃ opts,
    DockerCreateContainer opts ∈ calls_of (InstanceNew fuel p session conf) w ∧
    docker.ContainerName opts = types.Name instance ∧
    docker.Hostname opts = types.Hostname instance ∧
    docker.SessionId opts = types.Id session ∧
    docker.PwdIpAddress opts = types.PwdIpAddress session ∧
    types.IP instance = (docker.CreateContainer (docker_api p) opts).1.
Proof.
  intros Hrun.
  destruct (InstanceNew_Return_inv _ _ _ _ _ _ _ _ Hrun)
    as (hostname & prefix & Hh & Hp & Hcases).
  cbn zeta in Hcases.
  assert (instance = InstanceNew_instance p session conf hostname prefix) as ->.
  { destruct (docker.CreateContainer _ _).2; [by destruct Hcases as [_ ?]|].
    destruct Hcases as [_ Hres].
    destruct (storage.InstanceCreate _ _ _); congruence. }
  assert (prefix = String.substring 0 8 (types.Id session)) as Hprefix.
  { unfold slice_to, Go.slice_to in Hp.
    destruct (decide (8 ≤ String.length (types.Id session))%nat); by inversion Hp. }
  split; [done|]. split; [done|]. split; [cbn; by rewrite Hprefix|].
  split; [done|].
  exists (InstanceNew_opts session conf hostname prefix).
  split; [by apply InstanceNew_create_called | done].
Qed.
(** ** More on deleting an instance *)

(** Membership of a call in an explicit list of calls, and propositions
    built from it, decided by inspection. *)
Ltac in_calls :=
  repeat first [apply list_elem_of_here | apply list_elem_of_further].

Ltac settle_calls :=
  repeat match goal with
  | |- _ ∧ _ => split
  | |- _ ↔ _ => split
  | |- _ → _ => let H := fresh "Hs" in intros H
  | H : _ ∧ _ |- _ => destruct H
  | H : _ ∈ _ |- _ => exfalso; revert H; not_in_calls
  | |- _ ∈ _ => by in_calls
  | |- _ => done
  end.

(** X10. [InstanceDelete] returns nil exactly when the engine did not fail (no
    error, or the container reported as gone) and the storage deleted the
    record.  The deletion event and the storage call happen exactly when
    the engine did not fail, so the event is emitted also when the storage
    then fails; the gauges are updated exactly when nil is returned. *)
Theorem InstanceDelete_result (p : pwd) (session : types.Session)
  (instance : types.Instance) (w : World) :
  ((InstanceDelete p session instance w).1 = Return None ↔
   is_engine_failure (docker.DeleteContainer (docker_api p) (types.Name instance))
     = false ∧
   storage.InstanceDelete (storage_api p) (types.Id session) (types.Name instance)
     = None) ∧
  (Emit event.INSTANCE_DELETE (types.Id session) [types.Name instance] ∈
     calls_of (InstanceDelete p session instance) w ↔
   is_engine_failure (docker.DeleteContainer (docker_api p) (types.Name instance))
     = false) ∧
  (StorageInstanceDelete (types.Id session) (types.Name instance) ∈
     calls_of (InstanceDelete p session instance) w ↔
   is_engine_failure (docker.DeleteContainer (docker_api p) (types.Name instance))
     = false) ∧
  (SetGauges ∈ calls_of (InstanceDelete p session instance) w ↔
   (InstanceDelete p session instance w).1 = Return None).
Proof.
  pose proof (InstanceDelete_calls p session instance w) as Hcalls.
  cbn zeta in Hcalls. rewrite Hcalls. clear Hcalls.
  rewrite InstanceDelete_eq. cbn zeta.
  destruct (docker.DeleteContainer (docker_api p) (types.Name instance))
    as [e|] eqn:He; cbn [is_engine_failure].
  - destruct (Go.Contains e "No such container"); cbn [negb].
    + destruct (storage.InstanceDelete _ _ _); cbn; settle_calls.
    + cbn. settle_calls.
  - destruct (storage.InstanceDelete _ _ _); cbn; settle_calls.
Qed.


(** X12. Deleting twice is deleting once, as far as the registry and the
    connections go: the second [InstanceDelete] finds the channel still
    registered, closes it again and changes nothing. *)
Theorem InstanceDelete_twice (p : pwd) (session : types.Session)
  (instance : types.Instance) (w : World) :
  terms (InstanceDelete p session instance (InstanceDelete p session instance w).2).2
    = terms (InstanceDelete p session instance w).2 ∧
  conns (InstanceDelete p session instance (InstanceDelete p session instance w).2).2
    = conns (InstanceDelete p session instance w).2.
Proof.
  split; [by rewrite !InstanceDelete_terms|].
  rewrite (InstanceDelete_conns p session instance (InstanceDelete _ _ _ w).2).
  assert (getInstanceTermConn (types.Id session) (types.Name instance)
            (InstanceDelete p session instance w).2
          = getInstanceTermConn (types.Id session) (types.Name instance) w) as ->
    by (unfold getInstanceTermConn; by rewrite InstanceDelete_terms).
  destruct (getInstanceTermConn _ _ w) as [c|] eqn:Hc; [|done].
  cbn. unfold conn_state. rewrite InstanceDelete_conns, Hc. cbn.
  rewrite lookup_insert_eq. cbn. by rewrite insert_insert_eq.
Qed.

(** X13. A terminal cannot be attached again after a delete: once
    [InstanceDelete] has run for a key that had a channel, the closed
    channel is still registered, so [InstanceAttachTerminal] for any
    instance of that session id and name (such as a new instance that
    reuses the host name) returns nil without asking the engine for a
    connection and without registering or relaying anything. *)
Theorem InstanceAttachTerminal_after_delete (p : pwd) (session : types.Session)
  (instance instance' : types.Instance) (w : World) (c : net.Conn) :
  getInstanceTermConn (types.Id session) (types.Name instance) w = Some c →
  types.SessionId instance' = types.Id session →
  types.Name instance' = types.Name instance →
  InstanceAttachTerminal p instance' (InstanceDelete p session instance w).2 =
    (Return None, (InstanceDelete p session instance w).2) ∧
  getInstanceTermConn (types.SessionId instance') (types.Name instance')
    (InstanceDelete p session instance w).2 = Some c ∧
  net.closed (conn_state (InstanceDelete p session instance w).2 c) = true.
Proof.
  intros Hc Hsid Hname.
  assert (getInstanceTermConn (types.SessionId instance') (types.Name instance')
            (InstanceDelete p session instance w).2 = Some c) as Hreg.
  { rewrite Hsid, Hname. unfold getInstanceTermConn in *.
    by rewrite InstanceDelete_terms. }
  split; [by eapply InstanceAttachTerminal_registered|].
  split; [done | by apply InstanceDelete_closes].
Qed.
(** ** More on attaching and writing *)

Lemma conn_state_insert_eq (c : net.Conn) (s : net.ConnState)
  (m : gmap net.Conn net.ConnState) (w : World) :
  conn_state (set_conns (<[c := s]> m) w) c = s.
Proof. unfold conn_state. cbn. by rewrite lookup_insert_eq. Qed.

Lemma conn_state_insert_ne (c c' : net.Conn) (s : net.ConnState) (w : World) :
  c' ≠ c → conn_state (set_conns (<[c := s]> (conns w)) w) c' = conn_state w c'.
Proof. intros Hne. unfold conn_state. cbn. by rewrite lookup_insert_ne. Qed.

Lemma conn_state_record_all (cs : list Call) (w : World) (c : net.Conn) :
  conn_state (record_all cs w) c = conn_state w c.
Proof. reflexivity. Qed.

Lemma register_lookup_ne (sessionId instanceName sessionId' instanceName' : string)
  (conn : net.Conn) (w : World) :
  (sessionId', instanceName') ≠ (sessionId, instanceName) →
  getInstanceTermConn sessionId' instanceName'
    (register sessionId instanceName conn w).2
  = getInstanceTermConn sessionId' instanceName' w.
Proof.
  intros Hne. unfold register, getInstanceTermConn. cbn.
  destruct (decide (sessionId' = sessionId)) as [->|Hs].
  - assert (instanceName' ≠ instanceName) as Hn by congruence.
    destruct (terms w !! sessionId) as [m|] eqn:Hm; cbn;
      rewrite lookup_insert_eq; cbn.
    + by rewrite lookup_insert_ne.
    + by rewrite lookup_singleton_ne.
  - destruct (terms w !! sessionId) as [m|]; cbn; by rewrite lookup_insert_ne.
Qed.

Lemma InstanceAttachTerminal_fresh_eq (p : pwd) (instance : types.Instance)
  (w : World) (conn : net.Conn) :
  getInstanceTermConn (types.SessionId instance) (types.Name instance) w = None →
  docker.CreateAttachConnection (docker_api p) (types.Name instance) = inl conn →
  net.closed (conn_state w conn) = false →
  InstanceAttachTerminal p instance w =
  (Return None,
   record_all
     (DockerCreateAttachConnection (types.Name instance) ::
      ((λ chunk, Emit event.INSTANCE_TERMINAL_OUT (types.Session_Id instance)
                   [types.Name instance; chunk]) <$>
       ReplacementWriter (net.pending (conn_state w conn))))
     (set_conns
        (<[conn := {| net.closed := false;
                      net.received := net.received (conn_state w conn);
                      net.pending := [] |}]> (conns w))
        (register (types.SessionId instance) (types.Name instance) conn w).2)).
Proof.
  intros Hnone Hconn Hopen.
  unfold InstanceAttachTerminal, io_Copy, conn_ReadAll, register. step_M.
  rewrite Hnone, Hconn. cbn.
  destruct (terms w !! types.SessionId instance);
    unfold conn_state in *; cbn; rewrite Hopen; rewrite write_all_eq;
    unfold record_all, set_conns, set_terms, record; cbn;
    by rewrite <- app_assoc.
Qed.

(** X14. When the engine cannot give a connection, [InstanceAttachTerminal]
    returns the engine's error and registers nothing: the registry and the
    connections are as before, so that a later attach asks the engine
    again. *)
Theorem InstanceAttachTerminal_engine_failure (p : pwd) (instance : types.Instance)
  (w : World) (e : Go.error) :
  getInstanceTermConn (types.SessionId instance) (types.Name instance) w = None →
  docker.CreateAttachConnection (docker_api p) (types.Name instance) = inr e →
  InstanceAttachTerminal p instance w =
    (Return (Some e), record (DockerCreateAttachConnection (types.Name instance)) w) ∧
  getInstanceTermConn (types.SessionId instance) (types.Name instance)
    (InstanceAttachTerminal p instance w).2 = None ∧
  calls_of (InstanceAttachTerminal p instance)
    (InstanceAttachTerminal p instance w).2 =
    [DockerCreateAttachConnection (types.Name instance)].
Proof.
  intros Hnone He.
  assert (∀ w1, getInstanceTermConn (types.SessionId instance) (types.Name instance) w1
                  = None →
                InstanceAttachTerminal p instance w1 =
                  (Return (Some e),
                   record (DockerCreateAttachConnection (types.Name instance)) w1))
    as Hrun.
  { intros w1 H1. unfold InstanceAttachTerminal. step_M. by rewrite H1, He. }
  split; [by apply Hrun|]. rewrite (Hrun w Hnone). cbn [snd].
  split; [exact Hnone|].
  eapply calls_of_record_all; [|reflexivity].
  rewrite Hrun by exact Hnone. reflexivity.
Qed.

(** X15. A first attach: with no channel registered and a connection from the
    engine that is open, [InstanceAttachTerminal] registers that
    connection under (session id, instance name) and under no other key,
    and relays what the connection has to give: after the request to the
    engine it emits one INSTANCE_TERMINAL_OUT event per payload that comes
    out of the replacement encoder, addressed to the session the instance
    refers to and carrying the instance name; the connection is read to
    its end. *)
Theorem InstanceAttachTerminal_registers_and_relays (p : pwd)
  (instance : types.Instance) (w : World) (conn : net.Conn) :
  getInstanceTermConn (types.SessionId instance) (types.Name instance) w = None →
  docker.CreateAttachConnection (docker_api p) (types.Name instance) = inl conn →
  net.closed (conn_state w conn) = false →
  (InstanceAttachTerminal p instance w).1 = Return None ∧
  getInstanceTermConn (types.SessionId instance) (types.Name instance)
    (InstanceAttachTerminal p instance w).2 = Some conn ∧
  (∀ sessionId' instanceName',
     (sessionId', instanceName') ≠ (types.SessionId instance, types.Name instance) →
     getInstanceTermConn sessionId' instanceName' (InstanceAttachTerminal p instance w).2
     = getInstanceTermConn sessionId' instanceName' w) ∧
  calls_of (InstanceAttachTerminal p instance) w =
    DockerCreateAttachConnection (types.Name instance) ::
    ((λ chunk, Emit event.INSTANCE_TERMINAL_OUT (types.Session_Id instance)
                 [types.Name instance; chunk]) <$>
     ReplacementWriter (net.pending (conn_state w conn))) ∧
  net.pending (conn_state (InstanceAttachTerminal p instance w).2 conn) = [] ∧
  net.closed (conn_state (InstanceAttachTerminal p instance w).2 conn) = false.
Proof.
  intros Hnone Hconn Hopen.
  pose proof (InstanceAttachTerminal_fresh_eq p instance w conn Hnone Hconn Hopen)
    as Hrun.
  split; [by rewrite Hrun|]. split.
  { rewrite Hrun. apply (register_lookup _ _ conn w). }
  split.
  { intros s' n' Hne. rewrite Hrun. by apply (register_lookup_ne _ _ s' n' conn w). }
  split.
  { eapply calls_of_record_all; [by rewrite Hrun|].
    unfold register. cbn. by destruct (terms w !! types.SessionId instance). }
  rewrite Hrun. cbn [snd].
  by rewrite conn_state_record_all, conn_state_insert_eq.
Qed.

Lemma conn_Write_open (c : net.Conn) (data : string) (w : World) :
  net.closed (conn_state w c) = false →
  (conn_Write c data w).2 =
  set_conns (<[c := {| net.closed := false;
                       net.received := net.received (conn_state w c) ++ [data];
                       net.pending := net.pending (conn_state w c) |}]> (conns w)) w.
Proof. intros Hopen. unfold conn_Write. by rewrite Hopen. Qed.

(** X16. A write that goes through: with an open channel registered for the
    key and a payload that is not empty, [InstanceWriteToTerminal] hands
    the payload to that channel, after what it had received before, and to
    no other connection. *)
Theorem InstanceWriteToTerminal_delivers (p : pwd)
  (sessionId instanceName data : string) (w : World) (c : net.Conn) :
  getInstanceTermConn sessionId instanceName w = Some c →
  net.closed (conn_state w c) = false →
  data ≠ "" →
  net.received
    (conn_state (InstanceWriteToTerminal p sessionId instanceName data w).2 c)
    = (net.received (conn_state w c) ++ [data])%list ∧
  net.pending
    (conn_state (InstanceWriteToTerminal p sessionId instanceName data w).2 c)
    = net.pending (conn_state w c) ∧
  ∀ c', c' ≠ c →
    conn_state (InstanceWriteToTerminal p sessionId instanceName data w).2 c'
    = conn_state w c'.
Proof.
  intros Hc Hopen Hdata.
  rewrite InstanceWriteToTerminal_eq, Hc.
  destruct data as [|a data]; [done|]. cbn [String.length Nat.ltb Nat.leb].
  rewrite (conn_Write_open c _ w Hopen). cbn [snd].
  rewrite !record_as_record_all, !conn_state_record_all, !conn_state_insert_eq.
  split; [done|]. split; [done|]. intros c' Hne.
  by rewrite conn_state_record_all, conn_state_insert_ne.
Qed.

(** X17. Attach, then write: after a first attach that registered an open
    connection, a write for the instance reaches that connection. *)
Theorem InstanceWriteToTerminal_after_attach (p : pwd) (instance : types.Instance)
  (data : string) (w : World) (conn : net.Conn) :
  getInstanceTermConn (types.SessionId instance) (types.Name instance) w = None →
  docker.CreateAttachConnection (docker_api p) (types.Name instance) = inl conn →
  net.closed (conn_state w conn) = false →
  data ≠ "" →
  net.received
    (conn_state
       (InstanceWriteToTerminal p (types.SessionId instance) (types.Name instance) data
          (InstanceAttachTerminal p instance w).2).2 conn)
  = (net.received (conn_state w conn) ++ [data])%list.
Proof.
  intros Hnone Hconn Hopen Hdata.
  pose proof (InstanceAttachTerminal_fresh_eq p instance w conn Hnone Hconn Hopen)
    as Hrun.
  set (w1 := (InstanceAttachTerminal p instance w).2).
  assert (getInstanceTermConn (types.SessionId instance) (types.Name instance) w1
          = Some conn) as Hreg
    by (unfold w1; rewrite Hrun; apply (register_lookup _ _ conn w)).
  assert (conn_state w1 conn =
          {| net.closed := false; net.received := net.received (conn_state w conn);
             net.pending := [] |}) as Hstate
    by (unfold w1; rewrite Hrun; cbn [snd];
        by rewrite conn_state_record_all, conn_state_insert_eq).
  rewrite InstanceWriteToTerminal_eq, Hreg.
  destruct data as [|a data]; [done|]. cbn [String.length Nat.ltb Nat.leb].
  rewrite conn_Write_open by (by rewrite Hstate). cbn [snd].
  rewrite record_as_record_all, conn_state_record_all, conn_state_insert_eq.
  cbn. by rewrite Hstate.
Qed.
(** ** More on uploading a file *)










(** X18. An absolute destination is used as it is: the working directory is
    not asked for, the engine copies to that very path, and the result is
    nil or the engine's error wrapped in a message naming the file. *)
Theorem InstanceUploadFromReader_absolute (p : pwd) (instance : types.Instance)
  (fileName dest reader : string) (w : World) :
  Go.IsAbs dest = true →
  (InstanceUploadFromReader p instance fileName dest reader w).1 =
    Return
      match docker.CopyToContainer (docker_api p) (types.Name instance) dest
              fileName reader with
      | Some e =>
          Some ("Error while uploading file [" +:+ fileName +:+ "]. Error: " +:+
                e +:+ Go.newline)
      | None => None
      end ∧
  calls_of (InstanceUploadFromReader p instance fileName dest reader) w =
    [DockerCopyToContainer (types.Name instance) dest fileName reader;
     ObserveAction "InstanceUploadFromReader"].
Proof.
  intros Habs.
  assert (InstanceUploadFromReader p instance fileName dest reader w =
          (Return
             match docker.CopyToContainer (docker_api p) (types.Name instance) dest
                     fileName reader with
             | Some e =>
                 Some ("Error while uploading file [" +:+ fileName +:+
                       "]. Error: " +:+ e +:+ Go.newline)
             | None => None
             end,
           record_all
             [DockerCopyToContainer (types.Name instance) dest fileName reader;
              ObserveAction "InstanceUploadFromReader"] w)) as Hrun.
  { unfold InstanceUploadFromReader. rewrite Habs. step_M.
    destruct (docker.CopyToContainer _ _ _ _ _); cbn; by flatten_trace. }
  split; [by rewrite Hrun|].
  eapply calls_of_record_all; [by rewrite Hrun | reflexivity].
Qed.



(** X21. When the working-directory command cannot be run (an error, and no
    positive exit code), the upload returns that error as it is, not
    wrapped, and copies nothing; the output is not logged. *)
Theorem InstanceUploadFromReader_exec_error (p : pwd) (instance : types.Instance)
  (fileName dest reader b : string) (c : Z) (e : Go.error) (w : World) :
  docker.ExecAttach (docker_api p) (types.Name instance)
    ["bash"; "-c"; "pwdx $(</var/run/cwd)"] = (b, c, Some e) →
  (c ≤ 0)%Z →
  Go.IsAbs dest = false →
  (InstanceUploadFromReader p instance fileName dest reader w).1 = Return (Some e) ∧
  calls_of (InstanceUploadFromReader p instance fileName dest reader) w =
    [DockerExecAttach (types.Name instance) ["bash"; "-c"; "pwdx $(</var/run/cwd)"];
     ObserveAction "InstanceUploadFromReader"].
Proof.
  intros Hexec Hc Habs.
  assert (InstanceUploadFromReader p instance fileName dest reader w =
          (Return (Some e),
           record_all [DockerExecAttach (types.Name instance)
                         ["bash"; "-c"; "pwdx $(</var/run/cwd)"];
                       ObserveAction "InstanceUploadFromReader"] w)) as Hrun.
  { unfold InstanceUploadFromReader, getInstanceCWD. rewrite Habs. step_M.
    rewrite Hexec. destruct (Z.ltb_spec 0 c) as [?|_]; [lia|]. cbn.
    by flatten_trace. }
  split; [by rewrite Hrun|].
  eapply calls_of_record_all; [by rewrite Hrun | reflexivity].
Qed.
(** ** Looking up and downloading *)

(** X23. On a session whose id has at least eight characters,
    [checkHostnameExists] answers whether some instance of the session has
    the container name made of the first eight characters of the id, an
    underscore and the host name.  It goes by the names of the instances,
    not by the keys they are stored under. *)
Theorem checkHostnameExists_by_name (session : types.Session) (hostname : string) :
  (8 ≤ String.length (types.Id session))%nat →
  (checkHostnameExists session hostname = Return true ↔
   ∃ k instance,
     types.Instances session !! k = Some instance ∧
     types.Name instance =
       String.substring 0 8 (types.Id session) +:+ "_" +:+ hostname) ∧
  (checkHostnameExists session hostname = Return false ↔
   ∀ k instance,
     types.Instances session !! k = Some instance →
     types.Name instance ≠
       String.substring 0 8 (types.Id session) +:+ "_" +:+ hostname).
Proof.
  intros Hlen.
  destruct (checkHostnameExists_long session hostname Hlen) as (b & -> & Hb).
  unfold has_container in Hb. split.
  - rewrite <- Hb. split; [by intros [= ->] | by intros ->].
  - split.
    + intros [= ->] k i Hk Hn.
      assert (false = true) by (apply Hb; by exists k, i). done.
    + intros Hnone. destruct b; [|done].
      destruct Hb as [Hb _]. destruct (Hb eq_refl) as (k & i & Hk & Hn).
      by destruct (Hnone k i Hk).
Qed.

(** X24. What [InstanceNew] returns, [InstanceGet] finds: in the session
    [InstanceNew] leaves, the name of the returned instance leads to that
    instance, and every other name leads to what it led to before. *)
Theorem InstanceGet_after_InstanceNew (fuel : nat) (p : pwd)
  (session : types.Session) (conf : InstanceConfig) (w w' : World)
  (session' : types.Session) (instance : types.Instance) (err : option Go.error)
  (w2 : World) :
  InstanceNew fuel p session conf w = (Return (session', (Some instance, err)), w') →
  (InstanceGet p session' (types.Name instance) w2).1 = Return (Some instance) ∧
  ∀ name, name ≠ types.Name instance →
    (InstanceGet p session' name w2).1 = (InstanceGet p session name w2).1.
Proof.
  intros Hrun.
  destruct (InstanceNew_Return_inv _ _ _ _ _ _ _ _ Hrun)
    as (hostname & prefix & _ & _ & Hcases).
  cbn zeta in Hcases.
  destruct (docker.CreateContainer _ _).2; [by destruct Hcases as [_ ?]|].
  destruct Hcases as [-> Hres].
  assert (instance = InstanceNew_instance p session conf hostname prefix) as ->
    by (destruct (storage.InstanceCreate _ _ _); congruence).
  unfold InstanceGet. step_M. split.
  - by rewrite lookup_insert_eq.
  - intros name Hne. by rewrite lookup_insert_ne.
Qed.

Ltac step_MH :=
  unfold deferH, liftH, http_call, docker_CopyToContainer, observeAction,
    log_Println, call, modify, mbind, MH_bind, M_bind, mret, MH_ret, M_ret;
  cbn.

(** X25. A download that the transport fails: [InstanceUploadFromUrl] returns
    an error naming the URL and the transport's error, copies nothing into
    the container, and has no response body to close. *)
Theorem InstanceUploadFromUrl_transport_error (p : pwd) (instance : types.Instance)
  (fileName dest url : string) (e : Go.error) (wh : WorldH) :
  http_Get url = inr e →
  InstanceUploadFromUrl p instance fileName dest url wh =
  (Return (Some ("Could not download file [" +:+ url +:+ "]. Error: " +:+ e +:+
                 Go.newline)),
   {| world := record_all [Log ("Downloading file [" +:+ url +:+ "]");
                           ObserveAction "InstanceUploadFromUrl"] (world wh);
      http_calls := http_calls wh ++ [http.Get url] |}).
Proof.
  intros Hget. unfold InstanceUploadFromUrl. step_MH. rewrite Hget. cbn.
  by flatten_trace.
Qed.

(** X26. A download answered with a status other than 200:
    [InstanceUploadFromUrl] returns an error naming the URL and the status
    code, copies nothing into the container, and closes the body of the
    response. *)
Theorem InstanceUploadFromUrl_bad_status (p : pwd) (instance : types.Instance)
  (fileName dest url : string) (resp : http.Response) (wh : WorldH) :
  http_Get url = inl resp →
  http.StatusCode resp ≠ 200%Z →
  InstanceUploadFromUrl p instance fileName dest url wh =
  (Return (Some ("Could not download file [" +:+ url +:+ "]. Status code: " +:+
                 pretty (http.StatusCode resp) +:+ Go.newline)),
   {| world := record_all [Log ("Downloading file [" +:+ url +:+ "]");
                           ObserveAction "InstanceUploadFromUrl"] (world wh);
      http_calls := http_calls wh ++ [http.Get url; http.BodyClose url] |}).
Proof.
  intros Hget Hstatus. unfold InstanceUploadFromUrl. step_MH. rewrite Hget.
  destruct (Z.eqb_spec (http.StatusCode resp) 200) as [?|_]; [done|]. cbn.
  flatten_trace. by rewrite <- app_assoc.
Qed.

(** X27. A download answered with 200: the body is copied into the container
    at the destination exactly as given (it is not resolved against the
    working directory, absolute or not), the body is closed whether the
    copy succeeds or not, and the result is nil or the engine's error
    wrapped in a message naming the URL. *)
Theorem InstanceUploadFromUrl_ok (p : pwd) (instance : types.Instance)
  (fileName dest url : string) (resp : http.Response) (wh : WorldH) :
  http_Get url = inl resp →
  http.StatusCode resp = 200%Z →
  InstanceUploadFromUrl p instance fileName dest url wh =
  (Return
     match docker.CopyToContainer (docker_api p) (types.Name instance) dest fileName
             (http.Body resp) with
     | Some e =>
         Some ("Error while downloading file [" +:+ url +:+ "]. Error: " +:+ e +:+
               Go.newline)
     | None => None
     end,
   {| world :=
        record_all [Log ("Downloading file [" +:+ url +:+ "]");
                    DockerCopyToContainer (types.Name instance) dest fileName
                      (http.Body resp);
                    ObserveAction "InstanceUploadFromUrl"] (world wh);
      http_calls := http_calls wh ++ [http.Get url; http.BodyClose url] |}).
Proof.
  intros Hget Hstatus. unfold InstanceUploadFromUrl. step_MH. rewrite Hget.
  rewrite Hstatus. cbn.
  destruct (docker.CopyToContainer _ _ _ _ _); cbn;
    flatten_trace; by rewrite <- app_assoc.
Qed.

End Pwd.

(** ** The theorems at work on the fixtures *)

(** Upload by relative path: the working directory resolves to [/root] and
    the file goes to [/root/data.txt]. *)
Example InstanceUploadFromReader_relative :
  InstanceUploadFromReader p_ok (node "aaaaaaaa_node1") "data.txt" "data.txt" "hello"
    world0 =
  (Return None,
   record_all
     [DockerExecAttach "aaaaaaaa_node1" ["bash"; "-c"; "pwdx $(</var/run/cwd)"];
      DockerCopyToContainer "aaaaaaaa_node1" "/root/data.txt" "data.txt" "hello";
      ObserveAction "InstanceUploadFromReader"] world0).
Proof. vm_compute. reflexivity. Qed.

(** Host name allocation: with node1, node2 and node4 in the session the
    new instance is node3. *)
Example InstanceNew_node3 :
  ∃ session' instance w',
    InstanceNew "franela/dind" 4 p_ok session124 conf_default world0 =
      (Return (session', (Some instance, None)), w') ∧
    types.Hostname instance = "node3" ∧
    types.Name instance = "aaaaaaaa_node3" ∧
    types.Instances session' !! "aaaaaaaa_node3" = Some instance.
Proof. eexists _, _, _. vm_compute. repeat split; reflexivity. Qed.

Lemma InstanceNew_IsDockerHost_witness :
  ∃ instance,
    (InstanceNew "franela/dind" 4 p_ok session124 (conf_image "alpine") world0).1 =
      Return (addInstance instance session124, (Some instance, None)) ∧
    (types.IsDockerHost instance = true ↔
     "alpine" ∈ ["franela/dind"; "franela/dind:overlay2-dev"; "franela/ucp:2.4.1"]) ∧
    types.IsDockerHost instance = false.
Proof.
  exists (InstanceNew_instance "franela/dind" p_ok session124 (conf_image "alpine")
            "node3" "aaaaaaaa").
  split; [vm_compute; reflexivity|]. split; [|vm_compute; reflexivity].
  eapply (InstanceNew_IsDockerHost "franela/dind" 4 p_ok session124
            (conf_image "alpine") world0 _ _ _ _ world0).
  - vm_compute. reflexivity.
  - reflexivity.
  - left. reflexivity.
Defined.

Lemma InstanceDelete_keeps_registry_witness :
  getInstanceTermConn sid "aaaaaaaa_node1" world_attached = Some 1 ∧
  terms (InstanceDelete p_ok session124 (node "aaaaaaaa_node1") world_attached).2 =
    terms world_attached ∧
  net.closed (conn_state
                (InstanceDelete p_ok session124 (node "aaaaaaaa_node1") world_attached).2
                1) = true.
Proof.
  assert (getInstanceTermConn (types.Id session124)
            (types.Name (node "aaaaaaaa_node1")) world_attached = Some 1) as Hreg
    by (vm_compute; reflexivity).
  split; [exact Hreg|].
  destruct (InstanceDelete_keeps_registry p_ok session124 (node "aaaaaaaa_node1")
              world_attached 1 Hreg) as (Hterms & _ & Hclosed).
  split; [exact Hterms | exact Hclosed].
Defined.

(** A successful delete, after which the channel is still registered. *)
Lemma InstanceDelete_registry_entry_remains :
  (InstanceDelete p_ok session124 (node "aaaaaaaa_node1") world_attached).1 =
    Return None ∧
  getInstanceTermConn (types.Id session124) (types.Name (node "aaaaaaaa_node1"))
    (InstanceDelete p_ok session124 (node "aaaaaaaa_node1") world_attached).2 = Some 1 ∧
  getInstanceTermConn (types.Id session124) (types.Name (node "aaaaaaaa_node1"))
    (InstanceDelete p_ok session124 (node "aaaaaaaa_node1") world_attached).2 ≠ None.
Proof. vm_compute. repeat split; [reflexivity.. | discriminate]. Qed.

Lemma InstanceNew_allocates_lowest_node_witness :
  Hostname conf_default = "" ∧
  (8 ≤ String.length (types.Id session124))%nat ∧
  (size (types.Instances session124) < 4)%nat ∧
  ∃ N : Z,
    N = 3%Z ∧
    hostname_of 4 session124 conf_default = Return ("node" +:+ pretty N) ∧
    ¬ has_container session124 ("aaaaaaaa" +:+ "_" +:+ "node" +:+ pretty N).
Proof.
  assert (size (types.Instances session124) = 3) as Hsize by (vm_compute; reflexivity).
  split; [reflexivity|]. split; [vm_compute; lia|]. split; [rewrite Hsize; lia|].
  destruct (InstanceNew_allocates_lowest_node "franela/dind" 4 p_ok session124
              conf_default world0)
    as (N & _ & Hfree & _ & Hh & _).
  - reflexivity.
  - vm_compute. lia.
  - rewrite Hsize. lia.
  - rewrite Hsize. lia.
  - exists N. split; [|split; [exact Hh | exact Hfree]].
    assert (hostname_of 4 session124 conf_default = Return "node3") as Hrun
      by (vm_compute; reflexivity).
    rewrite Hrun in Hh. injection Hh as Hh.
    change ("" +:+ pretty N) with (pretty N) in Hh.
    change "3" with (pretty 3%Z) in Hh. by apply pretty_Z_inj in Hh.
Defined.

Lemma InstanceAttachTerminal_idempotent_witness :
  InstanceAttachTerminal (λ chunks, chunks) p_ok (node "aaaaaaaa_node1") world_attached
    = (Return None, world_attached) ∧
  InstanceAttachTerminal (λ chunks, chunks) p_ok (node "aaaaaaaa_node1")
    (InstanceAttachTerminal (λ chunks, chunks) p_ok (node "aaaaaaaa_node1") world0).2 =
  (Return None,
   (InstanceAttachTerminal (λ chunks, chunks) p_ok (node "aaaaaaaa_node1") world0).2).
Proof.
  split.
  - apply (InstanceAttachTerminal_idempotent (λ chunks, chunks) p_ok
             (node "aaaaaaaa_node1") world_attached) with (c := 1).
    vm_compute. reflexivity.
  - destruct (InstanceAttachTerminal_idempotent (λ chunks, chunks) p_ok
                (node "aaaaaaaa_node1") world0) as [_ Htwice].
    destruct Htwice as (c & _ & Hsecond & _); [vm_compute; reflexivity|].
    exact Hsecond.
Defined.

Lemma InstanceDelete_container_gone_witness :
  docker.DeleteContainer (docker_api p_gone) (types.Name (node "aaaaaaaa_node1")) =
    Some "Error: No such container: aaaaaaaa_node1" ∧
  Go.Contains "Error: No such container: aaaaaaaa_node1" "No such container" = true ∧
  (InstanceDelete p_gone session124 (node "aaaaaaaa_node1") world_attached).1 =
    Return None.
Proof.
  split; [reflexivity|]. split; [vm_compute; reflexivity|].
  apply (InstanceDelete_container_gone p_gone session124 (node "aaaaaaaa_node1")
           world_attached "Error: No such container: aaaaaaaa_node1").
  - reflexivity.
  - vm_compute. reflexivity.
Defined.

(** The engine reports the container as gone, the storage fails, and
    [InstanceDelete] returns the storage's error, not nil. *)
Lemma InstanceDelete_gone_store_down_returns_error :
  docker.DeleteContainer (docker_api p_gone_store_down)
    (types.Name (node "aaaaaaaa_node1")) =
    Some "Error: No such container: aaaaaaaa_node1" ∧
  Go.Contains "Error: No such container: aaaaaaaa_node1" "No such container" = true ∧
  (InstanceDelete p_gone_store_down session124 (node "aaaaaaaa_node1")
     world_attached).1 = Return (Some "storage down") ∧
  (InstanceDelete p_gone_store_down session124 (node "aaaaaaaa_node1")
     world_attached).1 ≠ Return None.
Proof. vm_compute. repeat split; [reflexivity.. | discriminate]. Qed.

Lemma InstanceDelete_engine_failure_aborts_witness :
  docker.DeleteContainer (docker_api p_engine_down)
    (types.Name (node "aaaaaaaa_node1")) = Some "cannot connect to the Docker daemon" ∧
  Go.Contains "cannot connect to the Docker daemon" "No such container" = false ∧
  (InstanceDelete p_engine_down session124 (node "aaaaaaaa_node1") world_attached).1 =
    Return (Some "cannot connect to the Docker daemon").
Proof.
  split; [reflexivity|]. split; [vm_compute; reflexivity|].
  apply (InstanceDelete_engine_failure_aborts p_engine_down session124
           (node "aaaaaaaa_node1") world_attached).
  - reflexivity.
  - vm_compute. reflexivity.
Defined.

Lemma InstanceWriteToTerminal_silent_witness :
  InstanceWriteToTerminal p_ok sid "aaaaaaaa_node7" "ls" world_attached =
    (Return tt, record (ObserveAction "InstanceWriteToTerminal") world_attached) ∧
  InstanceWriteToTerminal p_ok sid "aaaaaaaa_node1" "ls" world_attached =
    (Return tt,
     record (ObserveAction "InstanceWriteToTerminal")
       (conn_Write 1 "ls" world_attached).2).
Proof.
  destruct (InstanceWriteToTerminal_silent p_ok sid "aaaaaaaa_node7" "ls" world_attached)
    as (_ & _ & _ & Hdrop & _).
  destruct (InstanceWriteToTerminal_silent p_ok sid "aaaaaaaa_node1" "ls" world_attached)
    as (_ & _ & _ & _ & Hwrite & _).
  split.
  - apply Hdrop. left. vm_compute. reflexivity.
  - apply Hwrite; [vm_compute; reflexivity | discriminate].
Defined.

Lemma InstanceUploadFromReader_unparsable_cwd_panics_witness :
  docker.ExecAttach (docker_api p_no_colon) (types.Name (node "aaaaaaaa_node1"))
    ["bash"; "-c"; "pwdx $(</var/run/cwd)"] = ("", 0%Z, None) ∧
  Go.Contains "" ":" = false ∧
  Go.IsAbs "data.txt" = false ∧
  (InstanceUploadFromReader p_no_colon (node "aaaaaaaa_node1") "data.txt" "data.txt"
     "hello" world0).1 = Panic "index out of range".
Proof.
  split; [reflexivity|]. split; [reflexivity|]. split; [reflexivity|].
  apply (InstanceUploadFromReader_unparsable_cwd_panics p_no_colon
           (node "aaaaaaaa_node1") "data.txt" "data.txt" "hello" "" 0 world0).
  - reflexivity.
  - lia.
  - reflexivity.
  - reflexivity.
Defined.

Lemma InstanceNew_persistence_failure_witness :
  ∃ instance,
    (InstanceNew "franela/dind" 4 p_store_down session124 conf_default world0).1 =
      Return (addInstance instance session124, (None, Some "storage down")) ∧
    types.Instances (addInstance instance session124) !! "aaaaaaaa_node3"
      = Some instance.
Proof.
  set (opts := InstanceNew_opts "franela/dind" session124 conf_default "node3" "aaaaaaaa").
  exists (newInstance session124 conf_default opts "10.0.0.5" (docker.Hostname opts)
            (docker.ContainerName opts)).
  destruct (InstanceNew_persistence_failure "franela/dind" 4 p_store_down session124
              conf_default world0 opts "10.0.0.5"
              (newInstance session124 conf_default opts "10.0.0.5"
                 (docker.Hostname opts) (docker.ContainerName opts))
              "storage down") as (Hret & Hin & _).
  - vm_compute. do 3 apply list_elem_of_further. apply list_elem_of_here.
  - reflexivity.
  - reflexivity.
  - reflexivity.
  - split; [exact Hret | exact Hin].
Defined.

Lemma session_id_prefix_precondition_witness :
  (String.length (types.Id short_session) < 8)%nat ∧
  (InstanceNew "franela/dind" 1 p_ok short_session conf_default world0).1 =
    Panic "slice bounds out of range" ∧
  (8 ≤ String.length (types.Id session124))%nat ∧
  ∃ r, (InstanceNew "franela/dind" 4 p_ok session124 conf_default world0).1 = Return r.
Proof.
  assert (size (types.Instances session124) = 3) as Hsize by (vm_compute; reflexivity).
  assert (size (types.Instances short_session) = 0) as Hsize0
    by (vm_compute; reflexivity).
  destruct (session_id_prefix_precondition "franela/dind" 1 p_ok short_session
              conf_default world0 "node1") as [Hshort _];
    [rewrite Hsize0; lia | rewrite Hsize0; lia |].
  destruct (session_id_prefix_precondition "franela/dind" 4 p_ok session124
              conf_default world0 "node1") as [_ Hlong];
    [rewrite Hsize; lia | rewrite Hsize; lia |].
  split; [vm_compute; lia|]. split; [apply Hshort; vm_compute; lia|].
  split; [vm_compute; lia|]. apply Hlong. vm_compute. lia.
Defined.

(** ** The further properties at work on the fixtures *)

Lemma session124_keyed_by_name : keyed_by_name session124.
Proof.
  intros k i Hk. apply elem_of_list_to_map_2 in Hk.
  repeat (apply elem_of_cons in Hk as [Hk|Hk]; [by injection Hk as -> ->|]).
  by apply elem_of_nil in Hk.
Qed.

Lemma InstanceNew_engine_failure_witness :
  docker.CreateContainer (docker_api p_create_down)
    (InstanceNew_opts "franela/dind" session124 conf_default "node3" "aaaaaaaa")
    = ("", Some "no space left on device") ∧
  (InstanceNew "franela/dind" 4 p_create_down session124 conf_default world0).1 =
    Return (session124, (None, Some "no space left on device")).
Proof.
  split; [reflexivity|].
  apply (InstanceNew_engine_failure "franela/dind" 4 p_create_down session124
           conf_default world0
           (InstanceNew_opts "franela/dind" session124 conf_default "node3" "aaaaaaaa")
           "").
  - vm_compute. do 3 apply list_elem_of_further. apply list_elem_of_here.
  - reflexivity.
Defined.

Lemma InstanceNew_success_witness :
  storage.InstanceCreate (storage_api p_ok) (types.Id session124) (created "node3")
    = None ∧
  (InstanceNew "franela/dind" 4 p_ok session124 conf_default world0).1 =
    Return (addInstance (created "node3") session124, (Some (created "node3"), None)).
Proof.
  split; [reflexivity|].
  apply (InstanceNew_success "franela/dind" 4 p_ok session124 conf_default world0
           (InstanceNew_opts "franela/dind" session124 conf_default "node3" "aaaaaaaa")
           "10.0.0.5" (created "node3")).
  - vm_compute. do 3 apply list_elem_of_further. apply list_elem_of_here.
  - reflexivity.
  - reflexivity.
  - reflexivity.
Defined.

Lemma InstanceNew_keeps_session_witness :
  InstanceNew "franela/dind" 4 p_ok session124 conf_default world0 =
    (Return (addInstance (created "node3") session124, (Some (created "node3"), None)),
     (InstanceNew "franela/dind" 4 p_ok session124 conf_default world0).2) ∧
  types.Id (addInstance (created "node3") session124) = types.Id session124 ∧
  keyed_by_name (addInstance (created "node3") session124).
Proof.
  assert (InstanceNew "franela/dind" 4 p_ok session124 conf_default world0 =
          (Return (addInstance (created "node3") session124,
                   (Some (created "node3"), None)),
           (InstanceNew "franela/dind" 4 p_ok session124 conf_default world0).2))
    as Hrun by (vm_compute; reflexivity).
  split; [exact Hrun|].
  destruct (InstanceNew_keeps_session "franela/dind" 4 p_ok session124 conf_default
              world0 _ _ _ Hrun) as (Hid & _ & _ & Hkeyed).
  split; [exact Hid | exact (Hkeyed session124_keyed_by_name)].
Defined.

Lemma InstanceNew_auto_keeps_instances_witness :
  Hostname conf_default = "" ∧
  keyed_by_name session124 ∧
  types.Instances session124 ⊆
    types.Instances (addInstance (created "node3") session124) ∧
  size (types.Instances (addInstance (created "node3") session124)) =
    S (size (types.Instances session124)).
Proof.
  assert (InstanceNew "franela/dind" 4 p_ok session124 conf_default world0 =
          (Return (addInstance (created "node3") session124,
                   (Some (created "node3"), None)),
           (InstanceNew "franela/dind" 4 p_ok session124 conf_default world0).2))
    as Hrun by (vm_compute; reflexivity).
  split; [reflexivity|]. split; [exact session124_keyed_by_name|].
  destruct (InstanceNew_auto_keeps_instances "franela/dind" 4 p_ok session124
              conf_default world0 _ _ _ eq_refl session124_keyed_by_name Hrun)
    as [Hsub Hsize].
  split; [exact Hsub | apply Hsize; by eexists].
Defined.

Lemma InstanceNew_explicit_hostname_witness :
  Hostname (conf_hostname "node1") ≠ "" ∧
  (8 ≤ String.length (types.Id session124))%nat ∧
  has_container session124 "aaaaaaaa_node1" ∧
  ∃ session' result w',
    InstanceNew "franela/dind" 0 p_ok session124 (conf_hostname "node1") world0 =
      (Return (session', result), w') ∧
    ∀ instance, result.1 = Some instance →
      types.Hostname instance = "node1" ∧
      types.Instances session' !! "aaaaaaaa_node1" = Some instance.
Proof.
  split; [discriminate|]. split; [vm_compute; lia|]. split.
  { exists "aaaaaaaa_node1", (node "aaaaaaaa_node1"). split; reflexivity. }
  destruct (InstanceNew_explicit_hostname "franela/dind" 0 p_ok session124
              (conf_hostname "node1") world0)
    as (session' & result & w' & Hrun & _ & Hinst);
    [discriminate | vm_compute; lia |].
  exists session', result, w'. split; [exact Hrun | exact Hinst].
Defined.

Lemma InstanceNew_default_image_privileged_witness :
  ImageName conf_default = "" ∧
  InstanceNew "franela/dind" 4 p_ok session124 conf_default world0 =
    (Return (addInstance (created "node3") session124, (Some (created "node3"), None)),
     (InstanceNew "franela/dind" 4 p_ok session124 conf_default world0).2) ∧
  types.IsDockerHost (created "node3") = true.
Proof.
  assert (InstanceNew "franela/dind" 4 p_ok session124 conf_default world0 =
          (Return (addInstance (created "node3") session124,
                   (Some (created "node3"), None)),
           (InstanceNew "franela/dind" 4 p_ok session124 conf_default world0).2))
    as Hrun by (vm_compute; reflexivity).
  split; [reflexivity|]. split; [exact Hrun|].
  apply (InstanceNew_default_image_privileged "franela/dind" 4 p_ok session124
           conf_default world0 _ _ _ _ eq_refl Hrun).
Defined.

Lemma InstanceNew_instance_identity_witness :
  InstanceNew "franela/dind" 4 p_ok session124 conf_default world0 =
    (Return (addInstance (created "node3") session124, (Some (created "node3"), None)),
     (InstanceNew "franela/dind" 4 p_ok session124 conf_default world0).2) ∧
  types.Name (created "node3") =
    String.substring 0 8 (types.SessionId (created "node3")) +:+ "_" +:+
    types.Hostname (created "node3").
Proof.
  assert (InstanceNew "franela/dind" 4 p_ok session124 conf_default world0 =
          (Return (addInstance (created "node3") session124,
                   (Some (created "node3"), None)),
           (InstanceNew "franela/dind" 4 p_ok session124 conf_default world0).2))
    as Hrun by (vm_compute; reflexivity).
  split; [exact Hrun|].
  apply (InstanceNew_instance_identity "franela/dind" 4 p_ok session124
           conf_default world0 _ _ _ _ Hrun).
Defined.


Lemma InstanceAttachTerminal_after_delete_witness :
  getInstanceTermConn (types.Id session124) (types.Name (node "aaaaaaaa_node1"))
    world_attached = Some 1 ∧
  InstanceAttachTerminal (λ chunks, chunks) p_ok (created "node1")
    (InstanceDelete p_ok session124 (node "aaaaaaaa_node1") world_attached).2 =
  (Return None, (InstanceDelete p_ok session124 (node "aaaaaaaa_node1") world_attached).2).
Proof.
  assert (getInstanceTermConn (types.Id session124)
            (types.Name (node "aaaaaaaa_node1")) world_attached = Some 1) as Hsome
    by (vm_compute; reflexivity).
  split; [exact Hsome|].
  apply (InstanceAttachTerminal_after_delete (λ chunks, chunks) p_ok session124
           (node "aaaaaaaa_node1") (created "node1") world_attached 1 Hsome);
    reflexivity.
Defined.

Lemma InstanceAttachTerminal_engine_failure_witness :
  getInstanceTermConn (types.SessionId (node "aaaaaaaa_node1"))
    (types.Name (node "aaaaaaaa_node1")) world0 = None ∧
  docker.CreateAttachConnection (docker_api p_attach_down)
    (types.Name (node "aaaaaaaa_node1")) = inr "container is not running" ∧
  InstanceAttachTerminal (λ chunks, chunks) p_attach_down (node "aaaaaaaa_node1") world0
    = (Return (Some "container is not running"),
       record (DockerCreateAttachConnection "aaaaaaaa_node1") world0).
Proof.
  split; [reflexivity|]. split; [reflexivity|].
  apply (InstanceAttachTerminal_engine_failure (λ chunks, chunks) p_attach_down
           (node "aaaaaaaa_node1") world0 "container is not running");
    reflexivity.
Defined.

Lemma InstanceAttachTerminal_registers_and_relays_witness :
  getInstanceTermConn (types.SessionId (node "aaaaaaaa_node1"))
    (types.Name (node "aaaaaaaa_node1")) world_stream = None ∧
  net.closed (conn_state world_stream 1) = false ∧
  getInstanceTermConn (types.SessionId (node "aaaaaaaa_node1"))
    (types.Name (node "aaaaaaaa_node1"))
    (InstanceAttachTerminal (λ chunks, chunks) p_ok (node "aaaaaaaa_node1")
       world_stream).2 = Some 1 ∧
  net.pending
    (conn_state
       (InstanceAttachTerminal (λ chunks, chunks) p_ok (node "aaaaaaaa_node1")
          world_stream).2 1) = [].
Proof.
  split; [reflexivity|]. split; [vm_compute; reflexivity|].
  destruct (InstanceAttachTerminal_registers_and_relays (λ chunks, chunks) p_ok
              (node "aaaaaaaa_node1") world_stream 1)
    as (_ & Hreg & _ & _ & Hdrained & _);
    [reflexivity | reflexivity | vm_compute; reflexivity |].
  split; [exact Hreg | exact Hdrained].
Defined.

Lemma InstanceWriteToTerminal_delivers_witness :
  getInstanceTermConn sid "aaaaaaaa_node1" world_attached = Some 1 ∧
  net.closed (conn_state world_attached 1) = false ∧
  net.received
    (conn_state (InstanceWriteToTerminal p_ok sid "aaaaaaaa_node1" "ls" world_attached).2
       1)
  = (net.received (conn_state world_attached 1) ++ ["ls"])%list.
Proof.
  assert (getInstanceTermConn sid "aaaaaaaa_node1" world_attached = Some 1) as Hsome
    by (vm_compute; reflexivity).
  assert (net.closed (conn_state world_attached 1) = false) as Hopen
    by (vm_compute; reflexivity).
  split; [exact Hsome|]. split; [exact Hopen|].
  apply (InstanceWriteToTerminal_delivers p_ok sid "aaaaaaaa_node1" "ls"
           world_attached 1 Hsome Hopen).
  discriminate.
Defined.

Lemma InstanceWriteToTerminal_after_attach_witness :
  net.closed (conn_state world0 1) = false ∧
  net.received
    (conn_state
       (InstanceWriteToTerminal p_ok (types.SessionId (node "aaaaaaaa_node1"))
          (types.Name (node "aaaaaaaa_node1")) "ls"
          (InstanceAttachTerminal (λ chunks, chunks) p_ok (node "aaaaaaaa_node1")
             world0).2).2 1)
  = (net.received (conn_state world0 1) ++ ["ls"])%list.
Proof.
  split; [vm_compute; reflexivity|].
  apply (InstanceWriteToTerminal_after_attach (λ chunks, chunks) p_ok
           (node "aaaaaaaa_node1") "ls" world0 1).
  - reflexivity.
  - reflexivity.
  - vm_compute. reflexivity.
  - discriminate.
Defined.

Lemma InstanceUploadFromReader_absolute_witness :
  Go.IsAbs "/tmp/data.txt" = true ∧
  calls_of (InstanceUploadFromReader p_ok (node "aaaaaaaa_node1") "data.txt"
              "/tmp/data.txt" "hello") world0 =
    [DockerCopyToContainer "aaaaaaaa_node1" "/tmp/data.txt" "data.txt" "hello";
     ObserveAction "InstanceUploadFromReader"].
Proof.
  split; [reflexivity|].
  apply (InstanceUploadFromReader_absolute p_ok (node "aaaaaaaa_node1") "data.txt"
           "/tmp/data.txt" "hello" world0).
  reflexivity.
Defined.



Lemma InstanceUploadFromReader_exec_error_witness :
  docker.ExecAttach (docker_api p_exec_down) (types.Name (node "aaaaaaaa_node1"))
    ["bash"; "-c"; "pwdx $(</var/run/cwd)"] = ("", 0%Z, Some "exec failed") ∧
  (InstanceUploadFromReader p_exec_down (node "aaaaaaaa_node1") "data.txt" "data.txt"
     "hello" world0).1 = Return (Some "exec failed").
Proof.
  split; [reflexivity|].
  apply (InstanceUploadFromReader_exec_error p_exec_down (node "aaaaaaaa_node1")
           "data.txt" "data.txt" "hello" "" 0 "exec failed" world0);
    first [reflexivity | lia].
Defined.

Lemma InstanceUploadFromReader_exit_code_witness :
  docker.ExecAttach (docker_api (p_cwd "pwdx: no such process" 1))
    (types.Name (node "aaaaaaaa_node1")) ["bash"; "-c"; "pwdx $(</var/run/cwd)"]
    = ("pwdx: no such process", 1%Z, None) ∧
  (InstanceUploadFromReader (p_cwd "pwdx: no such process" 1) (node "aaaaaaaa_node1")
     "data.txt" "data.txt" "hello" world0).1 =
    Return (Some ("Error " +:+ pretty 1%Z +:+ " trying to get CWD")).
Proof.
  split; [reflexivity|].
  apply (InstanceUploadFromReader_exit_code (p_cwd "pwdx: no such process" 1)
           (node "aaaaaaaa_node1") "data.txt" "data.txt" "hello"
           "pwdx: no such process" 1 None world0);
    first [reflexivity | lia].
Defined.

Lemma checkHostnameExists_by_name_witness :
  (8 ≤ String.length (types.Id session124))%nat ∧
  checkHostnameExists session124 "node3" = Return false ∧
  ∀ k instance,
    types.Instances session124 !! k = Some instance →
    types.Name instance ≠
      String.substring 0 8 (types.Id session124) +:+ "_" +:+ "node3".
Proof.
  assert (8 ≤ String.length (types.Id session124))%nat as Hlen by (vm_compute; lia).
  assert (checkHostnameExists session124 "node3" = Return false) as Hrun
    by (vm_compute; reflexivity).
  split; [exact Hlen|]. split; [exact Hrun|].
  destruct (checkHostnameExists_by_name session124 "node3" Hlen) as [_ [Hfalse _]].
  exact (Hfalse Hrun).
Defined.

Lemma InstanceGet_after_InstanceNew_witness :
  InstanceNew "franela/dind" 4 p_ok session124 conf_default world0 =
    (Return (addInstance (created "node3") session124, (Some (created "node3"), None)),
     (InstanceNew "franela/dind" 4 p_ok session124 conf_default world0).2) ∧
  (InstanceGet p_ok (addInstance (created "node3") session124)
     (types.Name (created "node3")) world0).1 = Return (Some (created "node3")).
Proof.
  assert (InstanceNew "franela/dind" 4 p_ok session124 conf_default world0 =
          (Return (addInstance (created "node3") session124,
                   (Some (created "node3"), None)),
           (InstanceNew "franela/dind" 4 p_ok session124 conf_default world0).2))
    as Hrun by (vm_compute; reflexivity).
  split; [exact Hrun|].
  apply (InstanceGet_after_InstanceNew "franela/dind" 4 p_ok session124 conf_default
           world0 _ _ _ _ world0 Hrun).
Defined.

Lemma InstanceUploadFromUrl_transport_error_witness :
  get_down "http://down/f" = inr "connection refused" ∧
  (InstanceUploadFromUrl get_down p_ok (node "aaaaaaaa_node1") "f" "/tmp/f"
     "http://down/f" worldH0).1 =
    Return (Some ("Could not download file [" +:+ "http://down/f" +:+ "]. Error: " +:+
                  "connection refused" +:+ Go.newline)).
Proof.
  split; [reflexivity|].
  rewrite (InstanceUploadFromUrl_transport_error get_down p_ok (node "aaaaaaaa_node1")
             "f" "/tmp/f" "http://down/f" "connection refused" worldH0 eq_refl).
  reflexivity.
Defined.

Lemma InstanceUploadFromUrl_bad_status_witness :
  get_404 "http://host/f" = inl {| http.StatusCode := 404; http.Body := "not found" |} ∧
  http_calls
    (InstanceUploadFromUrl get_404 p_ok (node "aaaaaaaa_node1") "f" "/tmp/f"
       "http://host/f" worldH0).2 =
    [http.Get "http://host/f"; http.BodyClose "http://host/f"] ∧
  trace
    (world (InstanceUploadFromUrl get_404 p_ok (node "aaaaaaaa_node1") "f" "/tmp/f"
              "http://host/f" worldH0).2) =
    [Log "Downloading file [http://host/f]"; ObserveAction "InstanceUploadFromUrl"].
Proof.
  split; [reflexivity|].
  rewrite (InstanceUploadFromUrl_bad_status get_404 p_ok (node "aaaaaaaa_node1")
             "f" "/tmp/f" "http://host/f" _ worldH0 eq_refl);
    [split; reflexivity | discriminate].
Defined.

Lemma InstanceUploadFromUrl_ok_witness :
  get_ok "http://host/f" = inl {| http.StatusCode := 200; http.Body := "content" |} ∧
  trace
    (world (InstanceUploadFromUrl get_ok p_ok (node "aaaaaaaa_node1") "f" "sub/f"
              "http://host/f" worldH0).2) =
    [Log "Downloading file [http://host/f]";
     DockerCopyToContainer "aaaaaaaa_node1" "sub/f" "f" "content";
     ObserveAction "InstanceUploadFromUrl"].
Proof.
  split; [reflexivity|].
  rewrite (InstanceUploadFromUrl_ok get_ok p_ok (node "aaaaaaaa_node1")
             "f" "sub/f" "http://host/f" _ worldH0 eq_refl eq_refl).
  reflexivity.
Defined.
